(** * The ns-3 chain emulator of [setups/example2/ns-3/emulator.cc]

    The program is one [main] that parses three command-line values,
    validates the router count, builds a chain
    [tap node - router_1 - ... - router_n - tap node] out of CSMA links,
    addresses the router-side devices, bridges the two outer devices to
    host tap interfaces, computes global routes and runs the simulator.

    The ns-3 objects the program manipulates (node list, devices, channels,
    Ipv4 interfaces, tap bridges, log, simulator) are kept in an explicit
    [World]; every ns-3 call of [main] is an action of the monad [M] over
    it, which can also abort the way the ns-3 assertions do.  The helper
    objects that [main] keeps in local variables ([CsmaHelper],
    [Ipv4AddressHelper], [TapBridgeHelper], the containers) are plain values
    threaded through [main] in the order the source mutates them. *)

From Stdlib Require Import ZArith String Ascii List Lia.
From stdpp Require Import base tactics option list sets strings.

Local Open Scope string_scope.
Local Open Scope list_scope.
Local Open Scope Z_scope.

(** ** Machine integers and [std::to_string] *)

(** [uint16_t] arithmetic: the loop counters of [main] are [uint16_t], so
    [router++] wraps at 65536. The comparisons [router < noOfRouters + 1]
    happen after promotion to [int] and are exact. *)
Definition u16 (x : Z) : Z := x mod 65536.
Definition u32 (x : Z) : Z := x mod 2 ^ 32.

(** Conversion of a [uint64_t] to the [int64_t] an [ns3::Time] stores. *)
Definition to_int64 (x : Z) : Z :=
  let m := x mod 2 ^ 64 in if m <? 2 ^ 63 then m else m - 2 ^ 64.

Definition digit_char (d : Z) : ascii := ascii_of_nat (48 + Z.to_nat d).

Fixpoint to_string_digits (fuel : nat) (n : Z) (acc : string) : string :=
  match fuel with
  | O => acc
  | S fuel' =>
      let acc' := String (digit_char (n mod 10)) acc in
      if n / 10 =? 0 then acc' else to_string_digits fuel' (n / 10) acc'
  end.

(** [std::to_string(int)]; 20 digits are more than an [int] has. *)
Definition to_string (n : Z) : string :=
  if n <? 0 then "-" +:+ to_string_digits 20 (- n) ""
  else to_string_digits 20 n "".

(** ** IPv4 addresses *)

Definition ipv4 (a b c d : Z) : Z :=
  Z.lor (Z.shiftl a 24) (Z.lor (Z.shiftl b 16) (Z.lor (Z.shiftl c 8) d)).

Definition is_digit (c : ascii) : bool :=
  ((48 <=? nat_of_ascii c) && (nat_of_ascii c <=? 57))%nat.

(** Dotted-quad parsing, octet by octet: [cur] is the octet being read, [acc]
    the octets already closed by a dot. *)
Fixpoint parse_octets (s : string) (cur : option Z) (acc : list Z)
  : option (list Z) :=
  match s with
  | EmptyString =>
      match cur with Some v => Some (acc ++ [v]) | None => None end
  | String c s' =>
      if is_digit c then
        let v := default 0 cur * 10 + (Z.of_nat (nat_of_ascii c) - 48) in
        if v <=? 255 then parse_octets s' (Some v) acc else None
      else if Ascii.eqb c "."%char then
        match cur with
        | Some v => parse_octets s' None (acc ++ [v])
        | None => None
        end
      else None
  end.

(** [Ipv4Address] and [Ipv4Mask] built from a C string: the 32-bit host
    order value of a dotted quad, [None] where ns-3 aborts on the string. *)
Definition Ipv4Address (s : string) : option Z :=
  match parse_octets s None [] with
  | Some [a; b; c; d] => Some (ipv4 a b c d)
  | _ => None
  end.

(** A subnet block: network number and mask. *)
Record SubnetBlock := { sb_network : Z; sb_mask : Z }.

Definition in_block (a : Z) (b : SubnetBlock) : Prop :=
  0 <= a < 2 ^ 32 /\ Z.land a (sb_mask b) = sb_network b.

Definition overlap (b1 b2 : SubnetBlock) : Prop :=
  exists a, in_block a b1 /\ in_block a b2.

(** ** The simulated world *)

Record CsmaChannel := {
  ch_dataRate : string;
  ch_delay : Z;                 (* nanoseconds *)
  ch_devices : list nat         (* attached devices, in attach order *)
}.

Record NetDevice := { dev_node : nat; dev_channel : nat }.

Record Ipv4InterfaceAddress := {
  ifa_device : nat; ifa_local : Z; ifa_mask : Z
}.

Record TapBridge := {
  tap_node : nat; tap_bridged : nat; tap_mode : string; tap_deviceName : string
}.

Inductive Event :=
| EvBind (name value : string)
| EvSetDefault (name value : string)
| EvCreateNodes (count : nat)
| EvCsmaInstall (channel : nat)
| EvStackInstall (node : nat)
| EvAssign (device : nat) (address mask : Z)
| EvTapInstall (node device : nat) (name : string)
| EvPopulateRoutingTables
| EvStop (seconds : Z)
| EvRun
| EvDestroy.

Record World := {
  w_nodes : nat;                        (* NodeList: ids 0 .. w_nodes - 1 *)
  w_ipv4 : list nat;                    (* nodes carrying an Ipv4 stack *)
  w_devices : list NetDevice;           (* CSMA devices by id *)
  w_channels : list CsmaChannel;        (* CSMA channels by id *)
  w_addrs : list Ipv4InterfaceAddress;  (* addresses, in assignment order *)
  w_taps : list TapBridge;
  w_logLevel : Z;                       (* enabled levels of "Emulator" *)
  w_log : list string;
  w_trace : list Event                  (* simulator calls, oldest first *)
}.

Definition initial_world : World :=
  {| w_nodes := 0; w_ipv4 := []; w_devices := []; w_channels := [];
     w_addrs := []; w_taps := []; w_logLevel := 0; w_log := [];
     w_trace := [] |}.

Definition set_nodes (n : nat) (w : World) : World :=
  {| w_nodes := n; w_ipv4 := w_ipv4 w; w_devices := w_devices w;
     w_channels := w_channels w; w_addrs := w_addrs w; w_taps := w_taps w;
     w_logLevel := w_logLevel w; w_log := w_log w; w_trace := w_trace w |}.
Definition set_ipv4 (l : list nat) (w : World) : World :=
  {| w_nodes := w_nodes w; w_ipv4 := l; w_devices := w_devices w;
     w_channels := w_channels w; w_addrs := w_addrs w; w_taps := w_taps w;
     w_logLevel := w_logLevel w; w_log := w_log w; w_trace := w_trace w |}.
Definition set_links (ds : list NetDevice) (cs : list CsmaChannel)
    (w : World) : World :=
  {| w_nodes := w_nodes w; w_ipv4 := w_ipv4 w; w_devices := ds;
     w_channels := cs; w_addrs := w_addrs w; w_taps := w_taps w;
     w_logLevel := w_logLevel w; w_log := w_log w; w_trace := w_trace w |}.
Definition set_addrs (l : list Ipv4InterfaceAddress) (w : World) : World :=
  {| w_nodes := w_nodes w; w_ipv4 := w_ipv4 w; w_devices := w_devices w;
     w_channels := w_channels w; w_addrs := l; w_taps := w_taps w;
     w_logLevel := w_logLevel w; w_log := w_log w; w_trace := w_trace w |}.
Definition set_taps (l : list TapBridge) (w : World) : World :=
  {| w_nodes := w_nodes w; w_ipv4 := w_ipv4 w; w_devices := w_devices w;
     w_channels := w_channels w; w_addrs := w_addrs w; w_taps := l;
     w_logLevel := w_logLevel w; w_log := w_log w; w_trace := w_trace w |}.
Definition set_logLevel (l : Z) (w : World) : World :=
  {| w_nodes := w_nodes w; w_ipv4 := w_ipv4 w; w_devices := w_devices w;
     w_channels := w_channels w; w_addrs := w_addrs w; w_taps := w_taps w;
     w_logLevel := l; w_log := w_log w; w_trace := w_trace w |}.
Definition set_log (l : list string) (w : World) : World :=
  {| w_nodes := w_nodes w; w_ipv4 := w_ipv4 w; w_devices := w_devices w;
     w_channels := w_channels w; w_addrs := w_addrs w; w_taps := w_taps w;
     w_logLevel := w_logLevel w; w_log := l; w_trace := w_trace w |}.
Definition emits (es : list Event) (w : World) : World :=
  {| w_nodes := w_nodes w; w_ipv4 := w_ipv4 w; w_devices := w_devices w;
     w_channels := w_channels w; w_addrs := w_addrs w; w_taps := w_taps w;
     w_logLevel := w_logLevel w; w_log := w_log w;
     w_trace := w_trace w ++ es |}.
Definition emit (e : Event) (w : World) : World := emits [e] w.

(** ** The monad of ns-3 calls *)

(** The ways a call aborts the process instead of returning. *)
Inductive Failure :=
| OutOfFuel            (* a loop of the model ran out of fuel *)
| OutOfRange           (* container [Get] past the end *)
| NoIpv4Stack          (* [Assign] on a device whose node has no Ipv4 *)
| StackExists          (* [InternetStackHelper::Install] twice on a node *)
| BadAddress           (* unparsable or inconsistent address string *)
| AddressOverflow      (* subnet exhausted *)
| AddressCollision.    (* address handed out twice *)

Definition M (A : Type) : Type := World -> Failure + (A * World).

#[global] Instance M_ret : MRet M := fun A (a : A) w => inr (a, w).
#[global] Instance M_bind : MBind M := fun A B (f : A -> M B) (m : M A) w =>
  match m w with
  | inl e => inl e
  | inr (a, w') => f a w'
  end.

Definition fail {A} (e : Failure) : M A := fun _ => inl e.
Definition modify (f : World -> World) : M unit := fun w => inr (tt, f w).
Definition gets {A} (f : World -> A) : M A := fun w => inr (f w, w).
Definition from_option {A} (e : Failure) (o : option A) : M A :=
  match o with Some a => mret a | None => fail e end.

(** ** The ns-3 calls used by [main]

    ns-3 itself is not part of the repository; what follows is the behaviour
    of the calls [main] makes (create nodes, install a stack on a node, create
    a link between nodes, assign addresses to devices, attach a tap bridge,
    compute routes, stop, run, destroy) as far as [main] observes it,
    including the conditions under which ns-3 aborts the process. *)

(** *** Logging *)

(** Log levels are bit sets; [LOG_LEVEL_INFO] is "info and everything more
    severe", which has the error bit in it. *)
Definition LOG_ERROR : Z := 1.
Definition LOG_LEVEL_INFO : Z := 7.

Definition LogComponentEnable (level : Z) : M unit :=
  modify (fun w => set_logLevel (Z.lor (w_logLevel w) level) w).

Definition NS_LOG_ERROR (msg : string) : M unit :=
  modify (fun w =>
    if Z.land (w_logLevel w) LOG_ERROR =? 0 then w
    else set_log (w_log w ++ [msg]) w).

(** *** Global configuration *)

Definition GlobalValue_Bind (name value : string) : M unit :=
  modify (emit (EvBind name value)).
Definition Config_SetDefault (name value : string) : M unit :=
  modify (emit (EvSetDefault name value)).

(** *** Containers *)

Definition NodeContainer := list nat.
Definition NetDeviceContainer := list nat.

(** [c.Get(i)]: undefined past the end in C++, an abort here. *)
Definition Get (c : list nat) (i : nat) : M nat :=
  from_option OutOfRange (c !! i).

(** [c.Create(n)]: [n] fresh nodes, numbered after the existing ones. *)
Definition NodeContainer_Create (c : NodeContainer) (n : nat)
  : M NodeContainer :=
  fun w => inr (c ++ seq (w_nodes w) n,
                emit (EvCreateNodes n) (set_nodes (w_nodes w + n)%nat w)).

(** *** CSMA links *)

Record CsmaHelper := { csma_DataRate : string; csma_Delay : Z }.

Definition CsmaHelper_new : CsmaHelper :=
  {| csma_DataRate := "4294967295bps"; csma_Delay := 0 |}.
Definition SetChannelAttribute_DataRate (v : string) (h : CsmaHelper) :=
  {| csma_DataRate := v; csma_Delay := csma_Delay h |}.
Definition SetChannelAttribute_Delay (v : Z) (h : CsmaHelper) :=
  {| csma_DataRate := csma_DataRate h; csma_Delay := v |}.

(** [NanoSeconds(uint64_t)]: a [Time] holds a signed 64-bit count. *)
Definition NanoSeconds (v : Z) : Z := to_int64 v.

(** [csma.Install(c)]: one new channel with the helper's current attributes
    and one new device per node of [c], returned in the order of [c]. *)
Definition CsmaHelper_Install (h : CsmaHelper) (c : NodeContainer)
  : M NetDeviceContainer :=
  fun w =>
    let ch := length (w_channels w) in
    let devs := seq (length (w_devices w)) (length c) in
    let created :=
      map (fun n => {| dev_node := n; dev_channel := ch |}) c in
    let channel :=
      {| ch_dataRate := csma_DataRate h; ch_delay := csma_Delay h;
         ch_devices := devs |} in
    inr (devs,
         emit (EvCsmaInstall ch)
           (set_links (w_devices w ++ created) (w_channels w ++ [channel]) w)).

(** *** Internet stack *)

(** [stack.Install(node)]: a fatal error on a node that already has one. *)
Definition InternetStackHelper_Install (node : nat) : M unit :=
  fun w =>
    if bool_decide (node ∈ w_ipv4 w) then inl StackExists
    else inr (tt, emit (EvStackInstall node) (set_ipv4 (w_ipv4 w ++ [node]) w)).

(** *** Address helper *)

Record Ipv4AddressHelper := {
  ah_network : Z;   (* network number, shifted down by [ah_shift] *)
  ah_mask : Z;
  ah_address : Z;   (* next host number *)
  ah_shift : Z;
  ah_max : Z
}.

#[global] Instance Ipv4AddressHelper_eq_dec : EqDecision Ipv4AddressHelper.
Proof. solve_decision. Defined.

Fixpoint NumAddressBits_from (fuel : nat) (i maskbits : Z) : option Z :=
  match fuel with
  | O => None
  | S fuel' =>
      if Z.testbit maskbits 0 then Some i
      else NumAddressBits_from fuel' (i + 1) (Z.shiftr maskbits 1)
  end.
Definition NumAddressBits (maskbits : Z) : option Z :=
  NumAddressBits_from 32 0 maskbits.

(** [addresses.SetBase(network, mask)] with the default base 0.0.0.1. *)
Definition SetBase (network mask : string) : option Ipv4AddressHelper :=
  net ← Ipv4Address network;
  msk ← Ipv4Address mask;
  if negb (Z.ldiff net msk =? 0) then None
  else
    shift ← NumAddressBits msk;
    Some {| ah_network := Z.shiftr net shift; ah_mask := msk;
            ah_address := ipv4 0 0 0 1; ah_shift := shift;
            ah_max := Z.shiftl 1 shift - 2 |}.

Definition Ipv4AddressHelper_SetBase (network mask : string)
  : M Ipv4AddressHelper :=
  from_option BadAddress (SetBase network mask).

(** [NewAddress()]: post-increment of the host number; the address generator
    aborts on an address that was already handed out. *)
Definition NewAddress (h : Ipv4AddressHelper) : M (Z * Ipv4AddressHelper) :=
  fun w =>
    if ah_max h <? ah_address h then inl AddressOverflow
    else
      let addr := Z.lor (Z.shiftl (ah_network h) (ah_shift h)) (ah_address h) in
      if bool_decide (addr ∈ map ifa_local (w_addrs w)) then
        inl AddressCollision
      else
        inr ((addr,
              {| ah_network := ah_network h; ah_mask := ah_mask h;
                 ah_address := ah_address h + 1; ah_shift := ah_shift h;
                 ah_max := ah_max h |}), w).

Definition add_address (dev : nat) (addr mask : Z) (w : World) : World :=
  emit (EvAssign dev addr mask)
    (set_addrs
       (w_addrs w ++
        [{| ifa_device := dev; ifa_local := addr; ifa_mask := mask |}]) w).

(** One device of [Assign]: its node must carry an Ipv4 stack. *)
Definition Assign_device (h : Ipv4AddressHelper) (dev : nat)
  : M Ipv4AddressHelper :=
  d ← (fun w => from_option OutOfRange (w_devices w !! dev) w);
  has_ipv4 ← gets (fun w => bool_decide (dev_node d ∈ w_ipv4 w));
  if has_ipv4 : bool then
    r ← NewAddress h;
    modify (add_address dev r.1 (ah_mask h));;
    mret r.2
  else fail NoIpv4Stack.

(** [addresses.Assign(c)], device by device. *)
Fixpoint Ipv4AddressHelper_Assign (h : Ipv4AddressHelper)
    (c : NetDeviceContainer) : M Ipv4AddressHelper :=
  match c with
  | [] => mret h
  | dev :: c' => h' ← Assign_device h dev; Ipv4AddressHelper_Assign h' c'
  end.

(** *** Tap bridges, routing, simulator *)

Record TapBridgeHelper := { tb_Mode : string; tb_DeviceName : string }.

Definition TapBridgeHelper_new : TapBridgeHelper :=
  {| tb_Mode := "ConfigureLocal"; tb_DeviceName := "" |}.
Definition SetAttribute_Mode (v : string) (h : TapBridgeHelper) :=
  {| tb_Mode := v; tb_DeviceName := tb_DeviceName h |}.
Definition SetAttribute_DeviceName (v : string) (h : TapBridgeHelper) :=
  {| tb_Mode := tb_Mode h; tb_DeviceName := v |}.

Definition TapBridgeHelper_Install (h : TapBridgeHelper) (node dev : nat)
  : M unit :=
  modify (fun w =>
    emit (EvTapInstall node dev (tb_DeviceName h))
      (set_taps
         (w_taps w ++
          [{| tap_node := node; tap_bridged := dev; tap_mode := tb_Mode h;
              tap_deviceName := tb_DeviceName h |}]) w)).

Definition PopulateRoutingTables : M unit := modify (emit EvPopulateRoutingTables).
Definition Simulator_Stop (seconds : Z) : M unit := modify (emit (EvStop seconds)).
Definition Simulator_Run : M unit := modify (emit EvRun).
Definition Simulator_Destroy : M unit := modify (emit EvDestroy).

(** ** [main] *)

(** The values [cmd.Parse] leaves in the three configurable locals. *)
Record Args := { runSeconds : Z; delayNanoSeconds : Z; noOfRouters : Z }.

Definition default_args : Args :=
  {| runSeconds := 100; delayNanoSeconds := 50000; noOfRouters := 1 |}.

(** [for (uint16_t router = from; router < bound; router++) body], with the
    locals the body updates carried in [s]. *)
Fixpoint for_u16 {St : Type} (fuel : nat) (router bound : Z)
    (body : Z -> St -> M St) (s : St) : M St :=
  if router <? bound then
    match fuel with
    | O => fail OutOfFuel
    | S fuel' =>
        s' ← body router s;
        for_u16 fuel' (u16 (router + 1)) bound body s'
    end
  else mret s.

Definition main (fuel : nat) (a : Args) : M Z :=
  LogComponentEnable LOG_LEVEL_INFO;;
  let mode := "UseBridge" in
  let tapName0 := "ns3_em0" in
  let tapName1 := "ns3_em1" in
  let runSeconds := runSeconds a in
  let delayNanoSeconds := delayNanoSeconds a in
  let noOfRouters := noOfRouters a in
  if (noOfRouters =? 0) || (63 <? noOfRouters) then
    NS_LOG_ERROR "Invalid router count";;
    mret 1
  else
    GlobalValue_Bind "SimulatorImplementationType" "ns3::RealtimeSimulatorImpl";;
    GlobalValue_Bind "ChecksumEnabled" "true";;
    Config_SetDefault "ns3::RealtimeSimulatorImpl::SynchronizationMode" "BestEffort";;
    nodes ← NodeContainer_Create [] (Z.to_nat (u32 (2 + noOfRouters)));
    let csma := CsmaHelper_new in
    let csma := SetChannelAttribute_DataRate "1000Mbps" csma in
    let csma := SetChannelAttribute_Delay (NanoSeconds delayNanoSeconds) csma in
    let tapNodes : NodeContainer := [] in
    let tapDevices : NetDeviceContainer := [] in
    let internetStackNodes : NodeContainer := [] in
    n ← Get nodes 0;
    let tapNodes := tapNodes ++ [n] in
    n0 ← Get nodes 0;
    n1 ← Get nodes 1;
    let firstLink : NodeContainer := [n0; n1] in
    firstDevices ← CsmaHelper_Install csma firstLink;
    d ← Get firstDevices 0;
    let tapDevices := tapDevices ++ [d] in
    for_u16 fuel 1 (noOfRouters + 1)
      (fun router _ =>
         n ← Get nodes (Z.to_nat router);
         InternetStackHelper_Install n) tt;;
    addresses ← Ipv4AddressHelper_SetBase "172.20.0.0" "255.255.255.0";
    d ← Get firstDevices 1;
    addresses ← Ipv4AddressHelper_Assign addresses [d];
    addresses ← for_u16 fuel 1 noOfRouters
      (fun router addresses =>
         n0 ← Get nodes (Z.to_nat router);
         n1 ← Get nodes (Z.to_nat (router + 1));
         let link : NodeContainer := [n0; n1] in
         linkDevices ← CsmaHelper_Install csma link;
         addresses ← Ipv4AddressHelper_SetBase
           ("172.20." +:+ to_string router +:+ ".0") "255.255.255.0";
         Ipv4AddressHelper_Assign addresses linkDevices) addresses;
    n ← Get nodes (Z.to_nat (noOfRouters + 1));
    let tapNodes := tapNodes ++ [n] in
    n0 ← Get nodes (Z.to_nat noOfRouters);
    n1 ← Get nodes (Z.to_nat (noOfRouters + 1));
    let lastLink : NodeContainer := [n0; n1] in
    lastDevices ← CsmaHelper_Install csma lastLink;
    d ← Get lastDevices 1;
    let tapDevices := tapDevices ++ [d] in
    n ← Get nodes (Z.to_nat noOfRouters);
    let internetStackNodes := internetStackNodes ++ [n] in
    addresses ← Ipv4AddressHelper_SetBase
      ("172.20." +:+ to_string noOfRouters +:+ ".0") "255.255.255.0";
    d ← Get lastDevices 0;
    addresses ← Ipv4AddressHelper_Assign addresses [d];
    let tapBridge := TapBridgeHelper_new in
    let tapBridge := SetAttribute_Mode mode tapBridge in
    let tapBridge := SetAttribute_DeviceName tapName0 tapBridge in
    n ← Get tapNodes 0;
    d ← Get tapDevices 0;
    TapBridgeHelper_Install tapBridge n d;;
    let tapBridge := SetAttribute_DeviceName tapName1 tapBridge in
    n ← Get tapNodes 1;
    d ← Get tapDevices 1;
    TapBridgeHelper_Install tapBridge n d;;
    (if negb (noOfRouters =? 0) then PopulateRoutingTables else mret tt);;
    Simulator_Stop runSeconds;;
    Simulator_Run;;
    Simulator_Destroy;;
    mret 0.

(** A run of the program: [main] from the empty world. *)
Definition run (fuel : nat) (a : Args) : Failure + (Z * World) :=
  main fuel a initial_world.

Definition with_routers (n : Z) : Args :=
  {| runSeconds := runSeconds default_args;
     delayNanoSeconds := delayNanoSeconds default_args;
     noOfRouters := n |}.


(** ** What a run builds, in closed form

    The chain for [n] routers: link [i] joins node [i] to node [i + 1]
    through devices [2 i] and [2 i + 1] and owns the block 172.20.i.0/24. *)

Definition mask24 : Z := ipv4 255 255 255 0.
Definition subnet (i : nat) : Z := ipv4 172 20 (Z.of_nat i) 0.
Definition host (i : nat) (h : Z) : Z := ipv4 172 20 (Z.of_nat i) h.
Definition block (i : nat) : SubnetBlock :=
  {| sb_network := subnet i; sb_mask := mask24 |}.

Definition link_devices (i : nat) : list NetDevice :=
  [{| dev_node := i; dev_channel := i |};
   {| dev_node := S i; dev_channel := i |}].

Definition link_channel (delay : Z) (i : nat) : CsmaChannel :=
  {| ch_dataRate := "1000Mbps"; ch_delay := delay;
     ch_devices := [(2 * i)%nat; S (2 * i)] |}.

Definition addr_of (dev i : nat) (h : Z) : Ipv4InterfaceAddress :=
  {| ifa_device := dev; ifa_local := host i h; ifa_mask := mask24 |}.

Definition link_addrs (i : nat) : list Ipv4InterfaceAddress :=
  [addr_of (2 * i) i 1; addr_of (S (2 * i)) i 2].

Definition link_events (i : nat) : list Event :=
  [EvCsmaInstall i; EvAssign (2 * i) (host i 1) mask24;
   EvAssign (S (2 * i)) (host i 2) mask24].

(** Devices and channels of the links [0 .. k - 1]. *)
Fixpoint chain_devices (k : nat) : list NetDevice :=
  match k with
  | O => []
  | S i => chain_devices i ++ link_devices i
  end.

Fixpoint chain_channels (delay : Z) (k : nat) : list CsmaChannel :=
  match k with
  | O => []
  | S i => chain_channels delay i ++ [link_channel delay i]
  end.

(** Addresses and calls of the interior links [1 .. k]. *)
Fixpoint interior_addrs (k : nat) : list Ipv4InterfaceAddress :=
  match k with
  | O => []
  | S i => interior_addrs i ++ link_addrs (S i)
  end.

Fixpoint interior_events (k : nat) : list Event :=
  match k with
  | O => []
  | S i => interior_events i ++ link_events (S i)
  end.

Definition config_events (n : nat) : list Event :=
  [EvBind "SimulatorImplementationType" "ns3::RealtimeSimulatorImpl";
   EvBind "ChecksumEnabled" "true";
   EvSetDefault "ns3::RealtimeSimulatorImpl::SynchronizationMode" "BestEffort";
   EvCreateNodes (n + 2); EvCsmaInstall 0].

(** The world while the stack loop runs, [s] routers done. *)
Definition stacking_world (delay : Z) (n s : nat) : World :=
  {| w_nodes := n + 2; w_ipv4 := seq 1 s;
     w_devices := chain_devices 1; w_channels := chain_channels delay 1;
     w_addrs := []; w_taps := []; w_logLevel := LOG_LEVEL_INFO; w_log := [];
     w_trace := config_events n ++ map EvStackInstall (seq 1 s) |}.

(** The world while the link loop runs, [j] interior links done. *)
Definition linking_world (delay : Z) (n j : nat) : World :=
  {| w_nodes := n + 2; w_ipv4 := seq 1 n;
     w_devices := chain_devices (1 + j);
     w_channels := chain_channels delay (1 + j);
     w_addrs := addr_of 1 0 1 :: interior_addrs j;
     w_taps := []; w_logLevel := LOG_LEVEL_INFO; w_log := [];
     w_trace := config_events n ++ map EvStackInstall (seq 1 n) ++
                EvAssign 1 (host 0 1) mask24 :: interior_events j |}.

Definition chain_taps (n : nat) : list TapBridge :=
  [{| tap_node := 0; tap_bridged := 0; tap_mode := "UseBridge";
      tap_deviceName := "ns3_em0" |};
   {| tap_node := n + 1; tap_bridged := S (2 * n); tap_mode := "UseBridge";
      tap_deviceName := "ns3_em1" |}].

Definition closing_events (n : nat) (seconds : Z) : list Event :=
  [EvCsmaInstall n; EvAssign (2 * n) (host n 1) mask24;
   EvTapInstall 0 0 "ns3_em0"; EvTapInstall (n + 1) (S (2 * n)) "ns3_em1";
   EvPopulateRoutingTables; EvStop seconds; EvRun; EvDestroy].

(** The world a successful run with [n] routers ends in. *)
Definition final_world (delay seconds : Z) (n : nat) : World :=
  {| w_nodes := n + 2; w_ipv4 := seq 1 n;
     w_devices := chain_devices (n + 1);
     w_channels := chain_channels delay (n + 1);
     w_addrs := addr_of 1 0 1 :: interior_addrs (n - 1) ++ [addr_of (2 * n) n 1];
     w_taps := chain_taps n; w_logLevel := LOG_LEVEL_INFO; w_log := [];
     w_trace := config_events n ++ map EvStackInstall (seq 1 n) ++
                EvAssign 1 (host 0 1) mask24 :: interior_events (n - 1) ++
                closing_events n seconds |}.

(** The calls of a successful run up to the routing computation. *)
Definition build_events (n : nat) : list Event :=
  config_events n ++ map EvStackInstall (seq 1 n) ++
  EvAssign 1 (host 0 1) mask24 :: interior_events (n - 1) ++
  [EvCsmaInstall n; EvAssign (2 * n) (host n 1) mask24;
   EvTapInstall 0 0 "ns3_em0"; EvTapInstall (n + 1) (S (2 * n)) "ns3_em1"].

(** The world a rejected run ends in: only the log has changed. *)
Definition rejected_world : World :=
  {| w_nodes := 0; w_ipv4 := []; w_devices := []; w_channels := [];
     w_addrs := []; w_taps := []; w_logLevel := LOG_LEVEL_INFO;
     w_log := ["Invalid router count"]; w_trace := [] |}.

(** ** Observations on a world *)

Inductive Role := OsBridgeEndpoint | Router.

#[global] Instance Role_eq_dec : EqDecision Role.
Proof. solve_decision. Defined.

(** A node that a tap bridge sits on is an OS bridge endpoint, a node with
    an Ipv4 stack is a router. *)
Definition role (w : World) (node : nat) : option Role :=
  if bool_decide (node ∈ map tap_node (w_taps w)) then Some OsBridgeEndpoint
  else if bool_decide (node ∈ w_ipv4 w) then Some Router
  else None.

(** The addresses a device holds. *)
Definition addresses_of (w : World) (dev : nat) : list Ipv4InterfaceAddress :=
  filter (fun a => ifa_device a = dev) (w_addrs w).

Definition addressed (w : World) (dev : nat) : bool :=
  bool_decide (addresses_of w dev ≠ []).

Definition block_of (a : Ipv4InterfaceAddress) : SubnetBlock :=
  {| sb_network := Z.land (ifa_local a) (ifa_mask a); sb_mask := ifa_mask a |}.

(** The blocks used on a link: those of the addresses of its devices. *)
Definition link_blocks (w : World) (link : nat) : list SubnetBlock :=
  match w_channels w !! link with
  | Some ch => flat_map (fun dev => map block_of (addresses_of w dev))
                 (ch_devices ch)
  | None => []
  end.

(** The [i]-th device of a link. *)
Definition link_device (w : World) (link i : nat) : option nat :=
  ch ← w_channels w !! link; ch_devices ch !! i.

(** The node a device sits on. *)
Definition node_of (w : World) (dev : nat) : option nat :=
  dev_node <$> w_devices w !! dev.

(** The links a node is attached to: the channels of its devices, in
    creation order. *)
Definition links_of_node (w : World) (node : nat) : list nat :=
  dev_channel <$> filter (fun d => dev_node d = node) (w_devices w).

(** Which of the two devices of a link hold an address. *)
Definition link_addressing (w : World) (link : nat) : option (bool * bool) :=
  d0 ← link_device w link 0;
  d1 ← link_device w link 1;
  Some (addressed w d0, addressed w d1).

Definition is_assign (e : Event) : bool :=
  match e with EvAssign _ _ _ => true | _ => false end.

(** The calls that construct the topology, as opposed to the routing
    computation and the simulator control calls. *)
Definition is_build_event (e : Event) : bool :=
  match e with
  | EvPopulateRoutingTables | EvStop _ | EvRun | EvDestroy => false
  | _ => true
  end.

Definition valid_count (n : Z) : Prop := 1 <= n <= 63.


(** ** The address helper along the chain *)

(** The helper after [SetBase] on the block of link [i], about to hand out
    host number [next]. *)
Definition helper_for (i : nat) (next : Z) : Ipv4AddressHelper :=
  {| ah_network := Z.shiftr (subnet i) 8; ah_mask := mask24;
     ah_address := next; ah_shift := 8; ah_max := 254 |}.

(** The helper [main] carries into iteration [j] of the link loop: after the
    one address of the first link, or the two of interior link [j]. *)
Definition carried (j : nat) : Ipv4AddressHelper :=
  helper_for j (match j with O => 2 | S _ => 3 end).

(** What the string and bit operations give for the third octet [i]: the
    parsed base, the addresses [NewAddress] returns, their numeric value and
    their network part. *)
Definition octet_facts (i : nat) : bool :=
  bool_decide (SetBase ("172.20." +:+ to_string (Z.of_nat i) +:+ ".0") "255.255.255.0"
               = Some (helper_for i 1))
  && forallb (fun h => (Z.lor (Z.shiftl (Z.shiftr (subnet i) 8) 8) h =? host i h)
                       && (host i h =? 2886991872 + 256 * Z.of_nat i + h)
                       && (Z.land (host i h) mask24 =? subnet i))
       [0; 1; 2].


(** ** Further observations *)

(** The addresses, with their masks, held by the [i]-th device of a link. *)
Definition device_addresses (w : World) (link i : nat)
  : option (list (Z * Z)) :=
  dev ← link_device w link i;
  Some ((fun x => (ifa_local x, ifa_mask x)) <$> addresses_of w dev).

(** Kinds of calls in the trace: global configuration and node creation,
    stack installation, and the calls that follow the construction of the
    chain (bridging, routing, simulator control). *)
Definition is_config_event (e : Event) : bool :=
  match e with
  | EvBind _ _ | EvSetDefault _ _ | EvCreateNodes _ => true
  | _ => false
  end.

Definition is_stack_install (e : Event) : bool :=
  match e with EvStackInstall _ => true | _ => false end.

Definition is_closing_event (e : Event) : bool :=
  match e with
  | EvTapInstall _ _ _ | EvPopulateRoutingTables | EvStop _ | EvRun
  | EvDestroy => true
  | _ => false
  end.


(** * Proofs *)

(** ** The monad and the loop *)

Lemma World_ext (w1 w2 : World) :
  w_nodes w1 = w_nodes w2 -> w_ipv4 w1 = w_ipv4 w2 ->
  w_devices w1 = w_devices w2 -> w_channels w1 = w_channels w2 ->
  w_addrs w1 = w_addrs w2 -> w_taps w1 = w_taps w2 ->
  w_logLevel w1 = w_logLevel w2 -> w_log w1 = w_log w2 ->
  w_trace w1 = w_trace w2 -> w1 = w2.
Proof. destruct w1, w2; simpl; intros; subst; reflexivity. Qed.

(** Two worlds are compared field by field, each field reduced on its own. *)
Ltac world_fields :=
  apply World_ext;
  cbn [w_nodes w_ipv4 w_devices w_channels w_addrs w_taps w_logLevel w_log
       w_trace add_address emit emits set_nodes set_ipv4 set_links set_addrs
       set_taps set_logLevel set_log];
  try reflexivity.

Lemma bind_inr {A B} (m : M A) (f : A -> M B) (w w' : World) (a : A) :
  m w = inr (a, w') -> (m ≫= f) w = f a w'.
Proof. intros H. unfold mbind, M_bind. now rewrite H. Qed.

Lemma bind_Get {B} (c : list nat) (i x : nat) (f : nat -> M B) (w : World) :
  c !! i = Some x -> (Get c i ≫= f) w = f x w.
Proof. intros H. apply bind_inr. unfold Get. now rewrite H. Qed.

Lemma for_u16_count {St : Type} (body : Z -> St -> M St) (k : nat) :
  forall (lo fuel : nat) (F : nat -> World) (G : nat -> St),
    Z.of_nat (lo + k) <= 65535 -> (k <= fuel)%nat ->
    (forall j, (j < k)%nat ->
       body (Z.of_nat (lo + j)) (G j) (F j) = inr (G (S j), F (S j))) ->
    for_u16 fuel (Z.of_nat lo) (Z.of_nat (lo + k)) body (G 0%nat) (F 0%nat)
    = inr (G k, F k).
Proof.
  induction k as [|k IH]; intros lo fuel F G Hhi Hfuel Hstep.
  - rewrite Nat.add_0_r. destruct fuel; simpl; now rewrite Z.ltb_irrefl.
  - destruct fuel as [|fuel]; [lia|]. simpl.
    replace (Z.of_nat lo <? Z.of_nat (lo + S k)) with true
      by (symmetry; apply Z.ltb_lt; lia).
    pose proof (Hstep 0%nat ltac:(lia)) as Hfirst.
    rewrite Nat.add_0_r in Hfirst. rewrite (bind_inr _ _ _ _ _ Hfirst).
    replace (u16 (Z.of_nat lo + 1)) with (Z.of_nat (S lo)).
    2:{ unfold u16. rewrite Z.mod_small; lia. }
    replace (lo + S k)%nat with (S lo + k)%nat by lia.
    apply (IH (S lo) fuel (fun j => F (S j)) (fun j => G (S j))); [lia|lia|].
    intros j Hj. replace (S lo + j)%nat with (lo + S j)%nat by lia.
    apply Hstep. lia.
Qed.

Lemma forallb_below (P : nat -> bool) (N : nat) :
  forallb P (seq 0 N) = true -> forall i, (i < N)%nat -> P i = true.
Proof.
  intros H i Hi. rewrite forallb_forall in H. apply H, in_seq. lia.
Qed.

Lemma octet_facts_all : forallb octet_facts (seq 0 256) = true.
Proof. vm_compute. reflexivity. Qed.

Lemma octet_facts_at (i : nat) : (i < 256)%nat -> octet_facts i = true.
Proof. apply forallb_below, octet_facts_all. Qed.

Lemma SetBase_octet (i : nat) :
  (i < 256)%nat ->
  SetBase ("172.20." +:+ to_string (Z.of_nat i) +:+ ".0") "255.255.255.0"
  = Some (helper_for i 1).
Proof.
  intros Hi. pose proof (octet_facts_at i Hi) as H. unfold octet_facts in H.
  apply andb_true_iff in H as [H _]. now apply bool_decide_eq_true in H.
Qed.

Lemma host_facts (i : nat) (h : Z) :
  (i < 256)%nat -> 0 <= h <= 2 ->
  Z.lor (Z.shiftl (Z.shiftr (subnet i) 8) 8) h = host i h
  /\ host i h = 2886991872 + 256 * Z.of_nat i + h
  /\ Z.land (host i h) mask24 = subnet i.
Proof.
  intros Hi Hh. pose proof (octet_facts_at i Hi) as H. unfold octet_facts in H.
  apply andb_true_iff in H as [_ H]. rewrite forallb_forall in H.
  assert (In h [0; 1; 2]) as Hin by (simpl; lia).
  specialize (H h Hin).
  apply andb_true_iff in H as [H H3]. apply andb_true_iff in H as [H1 H2].
  apply Z.eqb_eq in H1, H2, H3. auto.
Qed.

Lemma length_chain_devices (k : nat) : length (chain_devices k) = (2 * k)%nat.
Proof. induction k; simpl; [done|]. rewrite length_app, IHk. simpl. lia. Qed.

Lemma length_chain_channels (d : Z) (k : nat) :
  length (chain_channels d k) = k.
Proof. induction k; simpl; [done|]. rewrite length_app, IHk. simpl. lia. Qed.

Lemma chain_devices_lookup (k i : nat) :
  (i < k)%nat ->
  chain_devices k !! (2 * i)%nat = Some {| dev_node := i; dev_channel := i |}
  /\ chain_devices k !! S (2 * i)
     = Some {| dev_node := S i; dev_channel := i |}.
Proof.
  induction k as [|k IH]; intros Hi; [lia|]. simpl chain_devices.
  destruct (decide (i = k)) as [->|Hne].
  - rewrite !lookup_app_r by (rewrite length_chain_devices; lia).
    rewrite length_chain_devices.
    replace (2 * k - 2 * k)%nat with 0%nat by lia.
    replace (S (2 * k) - 2 * k)%nat with 1%nat by lia. done.
  - rewrite !lookup_app_l by (rewrite length_chain_devices; lia).
    apply IH. lia.
Qed.

Lemma chain_channels_lookup (d : Z) (k i : nat) :
  (i < k)%nat -> chain_channels d k !! i = Some (link_channel d i).
Proof.
  induction k as [|k IH]; intros Hi; [lia|]. simpl.
  destruct (decide (i = k)) as [->|Hne].
  - rewrite lookup_app_r by (rewrite length_chain_channels; lia).
    rewrite length_chain_channels, Nat.sub_diag. done.
  - rewrite lookup_app_l by (rewrite length_chain_channels; lia).
    apply IH. lia.
Qed.

(** Every address handed out on the interior links [1 .. k]. *)
Lemma interior_addrs_elem (k : nat) (a : Ipv4InterfaceAddress) :
  a ∈ interior_addrs k ->
  exists i, (1 <= i <= k)%nat /\
    (a = addr_of (2 * i) i 1 \/ a = addr_of (S (2 * i)) i 2).
Proof.
  induction k as [|k IH]; simpl; intros Ha.
  - by apply elem_of_nil in Ha.
  - apply elem_of_app in Ha as [Ha|Ha].
    + destruct (IH Ha) as (i & Hi & Hor). exists i. split; [lia|done].
    + exists (S k). split; [lia|].
      unfold link_addrs in Ha.
      apply elem_of_cons in Ha as [->|Ha]; [by left|].
      apply elem_of_cons in Ha as [->|Ha]; [by right|].
      by apply elem_of_nil in Ha.
Qed.

Lemma host_fresh (k i : nat) (h : Z) :
  (k < i < 256)%nat -> 1 <= h <= 2 ->
  host i h ∉ map ifa_local (addr_of 1 0 1 :: interior_addrs k).
Proof.
  intros Hi Hh Hin. apply list_elem_of_fmap in Hin as (a & Heq & Ha).
  destruct (host_facts i h ltac:(lia) ltac:(lia)) as (_ & Hv & _).
  assert (exists i' h', (i' <= k)%nat /\ 0 <= h' <= 2 /\ ifa_local a = host i' h')
    as (i' & h' & Hi' & Hh' & Ha').
  { apply elem_of_cons in Ha as [->|Ha].
    - exists 0%nat, 1. split; [lia|]. split; [lia|done].
    - apply interior_addrs_elem in Ha as (i' & Hi' & [->| ->]).
      + exists i', 1. split; [lia|]. split; [lia|done].
      + exists i', 2. split; [lia|]. split; [lia|done]. }
  destruct (host_facts i' h' ltac:(lia) Hh') as (_ & Hv' & _).
  rewrite Ha', Hv, Hv' in Heq. lia.
Qed.

Lemma Assign_device_ok (i : nat) (h : Z) (dev : nat) (d : NetDevice) (w : World) :
  (i < 256)%nat -> 1 <= h <= 2 ->
  w_devices w !! dev = Some d ->
  dev_node d ∈ w_ipv4 w ->
  host i h ∉ map ifa_local (w_addrs w) ->
  Assign_device (helper_for i h) dev w
  = inr (helper_for i (h + 1), add_address dev (host i h) mask24 w).
Proof.
  intros Hi Hh Hdev Hnode Hfresh. unfold Assign_device.
  rewrite (bind_inr _ _ w w d) by (by rewrite Hdev).
  unfold gets. rewrite (bind_inr _ _ w w true)
    by (by rewrite bool_decide_eq_true_2).
  destruct (host_facts i h Hi ltac:(lia)) as (Hlor & _ & _).
  assert (NewAddress (helper_for i h) w
          = inr ((host i h, helper_for i (h + 1)), w)) as Hnew.
  { unfold NewAddress. cbn [ah_max ah_address ah_network ah_shift helper_for].
    replace (254 <? h) with false by (symmetry; apply Z.ltb_ge; lia).
    rewrite Hlor. by rewrite bool_decide_eq_false_2. }
  rewrite (bind_inr _ _ _ _ _ Hnew). reflexivity.
Qed.

Lemma lookup_seq_0 (len i : nat) : (i < len)%nat -> seq 0 len !! i = Some i.
Proof. intros H. by rewrite lookup_seq_lt. Qed.

Lemma SetBase_first :
  SetBase "172.20.0.0" "255.255.255.0" = Some (helper_for 0 1).
Proof. exact (SetBase_octet 0 ltac:(lia)). Qed.

Section Loops.
Variables (delay : Z) (n : nat).
Hypothesis Hn : (1 <= n <= 63)%nat.

Let nodes : NodeContainer := seq 0 (n + 2).
Let csma : CsmaHelper :=
  SetChannelAttribute_Delay delay
    (SetChannelAttribute_DataRate "1000Mbps" CsmaHelper_new).

Lemma stack_step (j : nat) :
  (j < n)%nat ->
  (n0 ← Get nodes (Z.to_nat (Z.of_nat (1 + j)));
   InternetStackHelper_Install n0) (stacking_world delay n j)
  = inr (tt, stacking_world delay n (S j)).
Proof.
  intros Hj. rewrite Nat2Z.id.
  rewrite (bind_Get _ _ (1 + j)%nat) by (apply lookup_seq_0; lia).
  unfold InternetStackHelper_Install.
  rewrite bool_decide_eq_false_2
    by (cbn [w_ipv4 stacking_world]; rewrite elem_of_seq; lia).
  do 2 f_equal. world_fields; cbn [stacking_world w_ipv4 w_trace].
  - by rewrite seq_S.
  - by rewrite seq_S, map_app, app_assoc.
Qed.

Lemma stack_loop (fuel : nat) :
  (n <= fuel)%nat ->
  for_u16 fuel 1 (Z.of_nat n + 1)
    (fun router (_ : unit) =>
       n0 ← Get nodes (Z.to_nat router); InternetStackHelper_Install n0)
    tt (stacking_world delay n 0)
  = inr (tt, stacking_world delay n n).
Proof.
  intros Hfuel.
  replace (Z.of_nat n + 1) with (Z.of_nat (1 + n)) by lia.
  apply (for_u16_count _ n 1 fuel (stacking_world delay n) (fun _ => tt));
    [lia|lia|].
  intros j Hj. by apply stack_step.
Qed.

Lemma link_step (j : nat) :
  (S j < n)%nat ->
  (n0 ← Get nodes (Z.to_nat (Z.of_nat (1 + j)));
   n1 ← Get nodes (Z.to_nat (Z.of_nat (1 + j) + 1));
   linkDevices ← CsmaHelper_Install csma [n0; n1];
   addresses ← Ipv4AddressHelper_SetBase
     ("172.20." +:+ to_string (Z.of_nat (1 + j)) +:+ ".0") "255.255.255.0";
   Ipv4AddressHelper_Assign addresses linkDevices) (linking_world delay n j)
  = inr (carried (S j), linking_world delay n (S j)).
Proof.
  intros Hj. rewrite Nat2Z.id.
  replace (Z.to_nat (Z.of_nat (1 + j) + 1)) with (2 + j)%nat by lia.
  rewrite (bind_Get _ _ (1 + j)%nat) by (apply lookup_seq_0; lia).
  rewrite (bind_Get _ _ (2 + j)%nat) by (apply lookup_seq_0; lia).
  erewrite bind_inr; [|reflexivity].
  unfold Ipv4AddressHelper_SetBase. rewrite SetBase_octet by lia.
  erewrite bind_inr; [|reflexivity].
  cbn [w_devices w_channels linking_world].
  rewrite length_chain_devices, length_chain_channels.
  cbn [length seq map Ipv4AddressHelper_Assign].
  erewrite bind_inr; cycle 1.
  { apply (Assign_device_ok (1 + j) 1 _ {| dev_node := 1 + j; dev_channel := 1 + j |});
      [lia|lia| | |].
    - cbn [w_devices emit emits set_links].
      rewrite lookup_app_r by (rewrite length_chain_devices; lia).
      by rewrite length_chain_devices, Nat.sub_diag.
    - cbn. rewrite elem_of_seq. lia.
    - apply (host_fresh j); lia. }
  erewrite bind_inr; cycle 1.
  { apply (Assign_device_ok (1 + j) 2 _ {| dev_node := 2 + j; dev_channel := 1 + j |});
      [lia|lia| | |].
    - cbn [w_devices emit emits set_links add_address set_addrs].
      rewrite lookup_app_r by (rewrite length_chain_devices; lia).
      rewrite length_chain_devices.
      by replace (S (2 * (1 + j)) - 2 * (1 + j))%nat with 1%nat by lia.
    - cbn. rewrite elem_of_seq. lia.
    - cbn [w_addrs emit emits set_links add_address set_addrs linking_world].
      rewrite map_app, elem_of_app. intros [Hin|Hin].
      + revert Hin. apply (host_fresh j); lia.
      + cbn [map ifa_local] in Hin. apply list_elem_of_singleton in Hin.
        destruct (host_facts (1 + j) 1 ltac:(lia) ltac:(lia)) as (_ & H1 & _).
        destruct (host_facts (1 + j) 2 ltac:(lia) ltac:(lia)) as (_ & H2 & _).
        rewrite H1, H2 in Hin. lia. }
  unfold mret, M_ret. do 2 f_equal.
  world_fields; cbn [linking_world w_addrs w_trace].
  - cbn [interior_addrs link_addrs]. rewrite <- !app_assoc. reflexivity.
  - cbn [interior_events link_events]. rewrite <- !app_assoc. reflexivity.
Qed.

Lemma link_loop (fuel : nat) :
  (n <= fuel)%nat ->
  for_u16 fuel 1 (Z.of_nat n)
    (fun router addresses =>
       n0 ← Get nodes (Z.to_nat router);
       n1 ← Get nodes (Z.to_nat (router + 1));
       linkDevices ← CsmaHelper_Install csma [n0; n1];
       addresses ← Ipv4AddressHelper_SetBase
         ("172.20." +:+ to_string router +:+ ".0") "255.255.255.0";
       Ipv4AddressHelper_Assign addresses linkDevices)
    (carried 0) (linking_world delay n 0)
  = inr (carried (n - 1), linking_world delay n (n - 1)).
Proof.
  intros Hfuel.
  replace (Z.of_nat n) with (Z.of_nat (1 + (n - 1))) at 1 by lia.
  apply (for_u16_count _ (n - 1) 1 fuel (linking_world delay n) carried);
    [lia|lia|].
  intros j Hj. apply link_step. lia.
Qed.
End Loops.

Theorem run_valid (fuel : nat) (a : Args) (n : nat) :
  noOfRouters a = Z.of_nat n -> (1 <= n <= 63)%nat -> (63 <= fuel)%nat ->
  run fuel a
  = inr (0, final_world (NanoSeconds (delayNanoSeconds a)) (runSeconds a) n).
Proof.
  intros Hargs Hn Hfuel. unfold run, main. rewrite Hargs.
  erewrite bind_inr; [|reflexivity].
  replace ((Z.of_nat n =? 0) || (63 <? Z.of_nat n)) with false
    by (symmetry; apply orb_false_iff; split; [apply Z.eqb_neq|apply Z.ltb_ge]; lia).
  do 3 (erewrite bind_inr; [|reflexivity]).
  replace (Z.to_nat (u32 (2 + Z.of_nat n))) with (n + 2)%nat
    by (unfold u32; rewrite Z.mod_small; lia).
  erewrite bind_inr; [|reflexivity].
  cbn [app].
  rewrite (bind_Get _ _ 0%nat) by (apply lookup_seq_0; lia).
  rewrite (bind_Get _ _ 0%nat) by (apply lookup_seq_0; lia).
  rewrite (bind_Get _ _ 1%nat) by (apply lookup_seq_0; lia).
  erewrite bind_inr; [|reflexivity].
  erewrite bind_inr; [|reflexivity].
  erewrite bind_inr; [|apply (stack_loop _ n Hn fuel); lia].
  erewrite bind_inr;
    [|unfold Ipv4AddressHelper_SetBase; rewrite SetBase_first; reflexivity].
  erewrite bind_inr; [|reflexivity].
  erewrite bind_inr; cycle 1.
  { cbn [Ipv4AddressHelper_Assign]. erewrite bind_inr; [reflexivity|].
    apply (Assign_device_ok 0 1 _ {| dev_node := 1; dev_channel := 0 |});
      [lia|lia|reflexivity| |].
    - cbn. rewrite elem_of_seq. lia.
    - cbn. apply not_elem_of_nil. }
  change (add_address _ _ _ _) with (linking_world (NanoSeconds (delayNanoSeconds a)) n 0).
  erewrite bind_inr; [|apply (link_loop _ n Hn fuel); lia].
  rewrite Nat2Z.id. replace (Z.to_nat (Z.of_nat n + 1)) with (S n) by lia.
  rewrite (bind_Get _ _ (S n)) by (apply lookup_seq_0; lia).
  rewrite (bind_Get _ _ n) by (apply lookup_seq_0; lia).
  rewrite (bind_Get _ _ (S n)) by (apply lookup_seq_0; lia).
  erewrite bind_inr; [|reflexivity].
  cbn [w_devices w_channels linking_world].
  rewrite length_chain_devices, length_chain_channels.
  replace (1 + (n - 1))%nat with n by lia.
  cbn [length seq map].
  erewrite bind_inr; [|reflexivity].
  rewrite (bind_Get _ _ n) by (apply lookup_seq_0; lia).
  erewrite bind_inr;
    [|unfold Ipv4AddressHelper_SetBase; rewrite SetBase_octet by lia;
      reflexivity].
  erewrite bind_inr; [|reflexivity].
  erewrite bind_inr; cycle 1.
  { cbn [Ipv4AddressHelper_Assign]. erewrite bind_inr; [reflexivity|].
    apply (Assign_device_ok n 1 _ {| dev_node := n; dev_channel := n |});
      [lia|lia| | |].
    - cbn [w_devices emit emits set_links].
      rewrite lookup_app_r by (rewrite length_chain_devices; lia).
      by rewrite length_chain_devices, Nat.sub_diag.
    - cbn. rewrite elem_of_seq. lia.
    - apply (host_fresh (n - 1)); lia. }
  do 6 (erewrite bind_inr; [|reflexivity]).
  replace (negb (Z.of_nat n =? 0)) with true
    by (symmetry; apply negb_true_iff, Z.eqb_neq; lia).
  do 4 (erewrite bind_inr; [|reflexivity]).
  unfold mret, M_ret. do 2 f_equal.
  world_fields;
    cbn [linking_world final_world w_devices w_channels w_taps w_trace];
    unfold chain_taps, closing_events;
    replace (n + 1)%nat with (S n) by lia;
    rewrite <- ?app_assoc; reflexivity.
Qed.

Theorem run_invalid (fuel : nat) (a : Args) :
  noOfRouters a = 0 \/ 63 < noOfRouters a ->
  run fuel a = inr (1, rejected_world).
Proof.
  intros Hbad. unfold run, main.
  erewrite bind_inr; [|reflexivity].
  replace ((noOfRouters a =? 0) || (63 <? noOfRouters a)) with true.
  - reflexivity.
  - symmetry. apply orb_true_iff.
    destruct Hbad; [left; apply Z.eqb_eq|right; apply Z.ltb_lt]; lia.
Qed.


(** Every [uint16_t] router count gives a run that returns: no loop runs out
    of fuel and no ns-3 call aborts. *)
Lemma run_total (fuel : nat) (a : Args) :
  0 <= noOfRouters a < 65536 -> (63 <= fuel)%nat ->
  exists code w, run fuel a = inr (code, w)
    /\ (code = 0 <-> valid_count (noOfRouters a)).
Proof.
  intros Hrange Hfuel.
  destruct (decide (1 <= noOfRouters a <= 63)) as [Hv|Hv].
  - exists 0, (final_world (NanoSeconds (delayNanoSeconds a)) (runSeconds a)
                 (Z.to_nat (noOfRouters a))).
    split; [apply run_valid; lia|]. by split.
  - exists 1, rejected_world. split; [apply run_invalid; lia|].
    split; [lia|]. intros Hv'. by destruct Hv.
Qed.

Example run_without_fuel : run 0 (with_routers 1) = inl OutOfFuel.
Proof. reflexivity. Qed.

Example to_string_63 : to_string 63 = "63".
Proof. reflexivity. Qed.

Example parse_last_block :
  Ipv4Address ("172.20." +:+ to_string 63 +:+ ".0") = Some (ipv4 172 20 63 0).
Proof. reflexivity. Qed.

Example parse_rejects_large_octet : Ipv4Address "172.20.256.0" = None.
Proof. reflexivity. Qed.

Example two_routers_trace :
  w_trace (final_world 50000 100 2)
  = [EvBind "SimulatorImplementationType" "ns3::RealtimeSimulatorImpl";
     EvBind "ChecksumEnabled" "true";
     EvSetDefault "ns3::RealtimeSimulatorImpl::SynchronizationMode" "BestEffort";
     EvCreateNodes 4; EvCsmaInstall 0; EvStackInstall 1; EvStackInstall 2;
     EvAssign 1 (ipv4 172 20 0 1) mask24;
     EvCsmaInstall 1;
     EvAssign 2 (ipv4 172 20 1 1) mask24; EvAssign 3 (ipv4 172 20 1 2) mask24;
     EvCsmaInstall 2;
     EvAssign 4 (ipv4 172 20 2 1) mask24;
     EvTapInstall 0 0 "ns3_em0"; EvTapInstall 3 5 "ns3_em1";
     EvPopulateRoutingTables; EvStop 100; EvRun; EvDestroy].
Proof. reflexivity. Qed.

Example two_routers_run :
  run 63 (with_routers 2) = inr (0, final_world 50000 100 2).
Proof. vm_compute. reflexivity. Qed.

(** ** What the final world shows *)

Lemma interior_even (k i : nat) :
  filter (fun a => ifa_device a = (2 * i)%nat) (interior_addrs k)
  = if decide (1 <= i <= k)%nat then [addr_of (2 * i) i 1] else [].
Proof.
  induction k as [|k IH]; cbn [interior_addrs].
  - rewrite filter_nil. case_decide; [lia|done].
  - rewrite filter_app, IH. unfold link_addrs.
    rewrite !filter_cons, filter_nil. cbn [ifa_device addr_of].
    repeat case_decide; try lia; try done.
    assert (i = S k) as -> by lia. done.
Qed.

Lemma interior_odd (k i : nat) :
  filter (fun a => ifa_device a = S (2 * i)) (interior_addrs k)
  = if decide (1 <= i <= k)%nat then [addr_of (S (2 * i)) i 2] else [].
Proof.
  induction k as [|k IH]; cbn [interior_addrs].
  - rewrite filter_nil. case_decide; [lia|done].
  - rewrite filter_app, IH. unfold link_addrs.
    rewrite !filter_cons, filter_nil. cbn [ifa_device addr_of].
    repeat case_decide; try lia; try done.
    assert (i = S k) as -> by lia. done.
Qed.

Section FinalWorld.
Variables (delay seconds : Z) (n : nat).
Hypothesis Hn : (1 <= n)%nat.
Let W := final_world delay seconds n.

Lemma final_addresses_even (i : nat) :
  addresses_of W (2 * i)
  = if decide (1 <= i <= n)%nat then [addr_of (2 * i) i 1] else [].
Proof.
  unfold addresses_of, W, final_world. cbn [w_addrs].
  rewrite filter_cons, filter_app, interior_even, filter_cons, filter_nil.
  cbn [ifa_device addr_of].
  repeat case_decide; try lia; try done.
  assert (i = n) as -> by lia. done.
Qed.

Lemma final_addresses_odd (i : nat) :
  addresses_of W (S (2 * i))
  = if decide (i = 0)%nat then [addr_of 1 0 1]
    else if decide (i < n)%nat then [addr_of (S (2 * i)) i 2] else [].
Proof.
  unfold addresses_of, W, final_world. cbn [w_addrs].
  rewrite filter_cons, filter_app, interior_odd, filter_cons, filter_nil.
  cbn [ifa_device addr_of].
  repeat case_decide; try lia; try done.
Qed.

Lemma final_link_device (i : nat) :
  (i <= n)%nat ->
  link_device W i 0 = Some (2 * i)%nat /\ link_device W i 1 = Some (S (2 * i)).
Proof.
  intros Hi. unfold link_device, W, final_world. cbn [w_channels].
  rewrite chain_channels_lookup by lia. done.
Qed.

Lemma final_node_of (i : nat) :
  (i <= n)%nat ->
  node_of W (2 * i) = Some i /\ node_of W (S (2 * i)) = Some (S i).
Proof.
  intros Hi. unfold node_of, W, final_world. cbn [w_devices].
  destruct (chain_devices_lookup (n + 1) i ltac:(lia)) as [-> ->]. done.
Qed.

Lemma final_role_os : role W 0 = Some OsBridgeEndpoint
                      /\ role W (n + 1) = Some OsBridgeEndpoint.
Proof.
  unfold role, W, final_world, chain_taps. cbn [w_taps map tap_node].
  split; rewrite bool_decide_eq_true_2; try done.
  - apply elem_of_cons; by left.
  - apply elem_of_cons; right. apply elem_of_cons; by left.
Qed.

Lemma final_role_router (i : nat) :
  (1 <= i <= n)%nat -> role W i = Some Router.
Proof.
  intros Hi. unfold role, W, final_world, chain_taps.
  cbn [w_taps w_ipv4 map tap_node].
  rewrite bool_decide_eq_false_2.
  - rewrite bool_decide_eq_true_2; [done|]. rewrite elem_of_seq. lia.
  - rewrite !elem_of_cons, elem_of_nil. lia.
Qed.

Lemma final_addressing_first : link_addressing W 0 = Some (false, true).
Proof.
  unfold link_addressing.
  destruct (final_link_device 0 ltac:(lia)) as [-> ->]. cbn [mbind option_bind].
  unfold addressed.
  rewrite (final_addresses_even 0), (final_addresses_odd 0).
  repeat case_decide; try lia. done.
Qed.

Lemma final_addressing_last : link_addressing W n = Some (true, false).
Proof.
  unfold link_addressing.
  destruct (final_link_device n ltac:(lia)) as [-> ->]. cbn [mbind option_bind].
  unfold addressed.
  rewrite (final_addresses_even n), (final_addresses_odd n).
  repeat case_decide; try lia. done.
Qed.

Lemma final_addressing_interior (i : nat) :
  (0 < i < n)%nat -> link_addressing W i = Some (true, true).
Proof.
  intros Hi. unfold link_addressing.
  destruct (final_link_device i ltac:(lia)) as [-> ->]. cbn [mbind option_bind].
  unfold addressed.
  rewrite (final_addresses_even i), (final_addresses_odd i).
  repeat case_decide; try lia. done.
Qed.
End FinalWorld.

Lemma block_of_addr (dev i : nat) (h : Z) :
  (i < 256)%nat -> 0 <= h <= 2 -> block_of (addr_of dev i h) = block i.
Proof.
  intros Hi Hh. unfold block_of, block, addr_of. cbn [ifa_local ifa_mask].
  destruct (host_facts i h Hi Hh) as (_ & _ & ->). reflexivity.
Qed.

Lemma subnet_value (i : nat) :
  (i < 256)%nat -> subnet i = 2886991872 + 256 * Z.of_nat i.
Proof.
  intros Hi. destruct (host_facts i 0 Hi ltac:(lia)) as (_ & H & _).
  unfold host in H. unfold subnet. lia.
Qed.

Lemma blocks_disjoint (i j : nat) :
  (i < 256)%nat -> (j < 256)%nat -> i <> j -> ~ overlap (block i) (block j).
Proof.
  intros Hi Hj Hne (x & [_ H1] & [_ H2]). cbn [sb_network sb_mask block] in *.
  rewrite H1 in H2. rewrite !subnet_value in H2 by done. lia.
Qed.

Section FinalBlocks.
Variables (delay seconds : Z) (n : nat).
Hypothesis Hn : (1 <= n <= 63)%nat.
Let W := final_world delay seconds n.

Lemma final_link_blocks (i : nat) :
  (i <= n)%nat ->
  link_blocks W i = if decide (0 < i < n)%nat then [block i; block i]
                    else [block i].
Proof.
  intros Hi. unfold link_blocks, W.
  replace (w_channels (final_world delay seconds n) !! i)
    with (Some (link_channel delay i))
    by (symmetry; apply chain_channels_lookup; lia).
  cbn [ch_devices link_channel flat_map].
  rewrite (final_addresses_even delay seconds n ltac:(lia) i).
  rewrite (final_addresses_odd delay seconds n ltac:(lia) i).
  repeat case_decide; try lia; cbn [map app];
    rewrite ?block_of_addr by lia; try reflexivity.
  by subst i.
Qed.

Lemma final_link_blocks_none (i : nat) :
  (n < i)%nat -> link_blocks W i = [].
Proof.
  intros Hi. unfold link_blocks, W.
  replace (w_channels (final_world delay seconds n) !! i)
    with (@None CsmaChannel); [done|].
  symmetry. apply lookup_ge_None. cbn [final_world w_channels].
  rewrite length_chain_channels. lia.
Qed.

Lemma final_link_blocks_elem (i : nat) (b : SubnetBlock) :
  b ∈ link_blocks W i -> (i <= n)%nat /\ b = block i.
Proof.
  destruct (decide (i <= n)%nat) as [Hi|Hi].
  - rewrite final_link_blocks by done. intros Hb. split; [done|].
    case_decide; repeat (apply elem_of_cons in Hb as [->|Hb]; [done|]);
      by apply elem_of_nil in Hb.
  - rewrite final_link_blocks_none by lia. intros Hb.
    by apply elem_of_nil in Hb.
Qed.
End FinalBlocks.

Lemma run_valid_Z (fuel : nat) (a : Args) :
  valid_count (noOfRouters a) -> (63 <= fuel)%nat ->
  run fuel a
  = inr (0, final_world (NanoSeconds (delayNanoSeconds a)) (runSeconds a)
              (Z.to_nat (noOfRouters a))).
Proof.
  intros [Hlo Hhi] Hfuel. apply run_valid; [lia|lia|done].
Qed.

(** C1. For every router count in [1,63] the run builds exactly
    [routerCount + 2] nodes and [routerCount + 1] links; node 0 and node
    [routerCount + 1] are OS bridge endpoints, the nodes [1 .. routerCount]
    are routers, and link [i] joins node [i] (its device 0) to node [i + 1]
    (its device 1). *)
Theorem chain_shape (fuel : nat) (a : Args) :
  valid_count (noOfRouters a) -> (63 <= fuel)%nat ->
  exists w, run fuel a = inr (0, w)
    /\ Z.of_nat (w_nodes w) = noOfRouters a + 2
    /\ Z.of_nat (length (w_channels w)) = noOfRouters a + 1
    /\ role w 0 = Some OsBridgeEndpoint
    /\ role w (Z.to_nat (noOfRouters a + 1)) = Some OsBridgeEndpoint
    /\ (forall i : nat,
          1 <= Z.of_nat i <= noOfRouters a -> role w i = Some Router)
    /\ (forall i : nat,
          Z.of_nat i <= noOfRouters a ->
          exists d0 d1,
            link_device w i 0 = Some d0 /\ node_of w d0 = Some i /\
            link_device w i 1 = Some d1 /\ node_of w d1 = Some (S i)).
Proof.
  intros Hv Hfuel. pose proof Hv as [Hlo Hhi].
  eexists. split; [by apply run_valid_Z|].
  set (n := Z.to_nat (noOfRouters a)).
  set (W := final_world _ _ n).
  assert (1 <= n)%nat as Hn by lia.
  destruct (final_role_os (NanoSeconds (delayNanoSeconds a)) (runSeconds a) n)
    as [Hos0 Hos1].
  split; [cbn [W final_world w_nodes]; lia|].
  split; [cbn [W final_world w_channels]; rewrite length_chain_channels; lia|].
  split; [done|].
  split; [by replace (Z.to_nat (noOfRouters a + 1)) with (n + 1)%nat by lia|].
  split.
  - intros i Hi. apply final_role_router; lia.
  - intros i Hi.
    destruct (final_link_device (NanoSeconds (delayNanoSeconds a))
                (runSeconds a) n Hn i ltac:(lia)) as [Hd0 Hd1].
    destruct (final_node_of (NanoSeconds (delayNanoSeconds a))
                (runSeconds a) n Hn i ltac:(lia)) as [Hn0 Hn1].
    by exists (2 * i)%nat, (S (2 * i)).
Qed.

Lemma chain_shape_witness :
  valid_count (noOfRouters (with_routers 3)) /\ (63 <= 63)%nat /\
  exists w, run 63 (with_routers 3) = inr (0, w)
    /\ Z.of_nat (w_nodes w) = 5 /\ Z.of_nat (length (w_channels w)) = 4.
Proof.
  assert (valid_count (noOfRouters (with_routers 3))) as Hv
    by (unfold valid_count; simpl; lia).
  split; [exact Hv|]. split; [lia|].
  destruct (chain_shape 63 (with_routers 3) Hv ltac:(lia))
    as (w & Hrun & Hnodes & Hlinks & _).
  exists w. auto.
Defined.

(** C2. For every valid router count, link [i] (in creation order,
    [0 <= i <= routerCount]) is addressed, and only from the block
    172.20.i.0/255.255.255.0; blocks used on two different links never
    overlap. *)
Theorem link_subnets (fuel : nat) (a : Args) :
  valid_count (noOfRouters a) -> (63 <= fuel)%nat ->
  exists w, run fuel a = inr (0, w)
    /\ (forall i : nat,
          Z.of_nat i <= noOfRouters a ->
          link_blocks w i <> [] /\
          forall b, b ∈ link_blocks w i ->
            b = {| sb_network := ipv4 172 20 (Z.of_nat i) 0;
                   sb_mask := ipv4 255 255 255 0 |})
    /\ (forall (i j : nat) (b1 b2 : SubnetBlock),
          i <> j -> b1 ∈ link_blocks w i -> b2 ∈ link_blocks w j ->
          ~ overlap b1 b2).
Proof.
  intros Hv Hfuel. pose proof Hv as [Hlo Hhi].
  eexists. split; [by apply run_valid_Z|].
  set (n := Z.to_nat (noOfRouters a)).
  assert (1 <= n <= 63)%nat as Hn by lia.
  split.
  - intros i Hi. split.
    + rewrite final_link_blocks by lia. by case_decide.
    + intros b Hb. by apply final_link_blocks_elem in Hb as [_ ->].
  - intros i j b1 b2 Hne Hb1 Hb2.
    apply final_link_blocks_elem in Hb1 as [Hi ->]; [|done].
    apply final_link_blocks_elem in Hb2 as [Hj ->]; [|done].
    apply blocks_disjoint; lia.
Qed.

Lemma link_subnets_witness :
  valid_count (noOfRouters (with_routers 3)) /\ (63 <= 63)%nat /\
  exists w, run 63 (with_routers 3) = inr (0, w)
    /\ link_blocks w 2 <> []
    /\ forall b, b ∈ link_blocks w 2 ->
         b = {| sb_network := ipv4 172 20 2 0; sb_mask := ipv4 255 255 255 0 |}.
Proof.
  assert (valid_count (noOfRouters (with_routers 3))) as Hv
    by (unfold valid_count; simpl; lia).
  split; [exact Hv|]. split; [lia|].
  destruct (link_subnets 63 (with_routers 3) Hv ltac:(lia))
    as (w & Hrun & Hblocks & _).
  exists w. split; [exact Hrun|]. apply (Hblocks 2%nat). simpl. lia.
Defined.

(** C3. For every valid router count: on the first link only device 1 is
    addressed, on the last link only device 0, on every interior link both.
    The addressed device of the first and last link sits on a router, the
    unaddressed one on an OS bridge endpoint. *)
Theorem addressing_pattern (fuel : nat) (a : Args) :
  valid_count (noOfRouters a) -> (63 <= fuel)%nat ->
  exists w, run fuel a = inr (0, w)
    /\ link_addressing w 0 = Some (false, true)
    /\ link_addressing w (Z.to_nat (noOfRouters a)) = Some (true, false)
    /\ (forall i : nat,
          0 < Z.of_nat i < noOfRouters a ->
          link_addressing w i = Some (true, true))
    /\ (exists os_dev router_dev,
          link_device w 0 0 = Some os_dev /\
          node_of w os_dev = Some 0%nat /\
          role w 0 = Some OsBridgeEndpoint /\
          link_device w 0 1 = Some router_dev /\
          node_of w router_dev = Some 1%nat /\
          role w 1 = Some Router)
    /\ (exists router_dev os_dev,
          link_device w (Z.to_nat (noOfRouters a)) 0 = Some router_dev /\
          node_of w router_dev = Some (Z.to_nat (noOfRouters a)) /\
          role w (Z.to_nat (noOfRouters a)) = Some Router /\
          link_device w (Z.to_nat (noOfRouters a)) 1 = Some os_dev /\
          node_of w os_dev = Some (Z.to_nat (noOfRouters a + 1)) /\
          role w (Z.to_nat (noOfRouters a + 1)) = Some OsBridgeEndpoint).
Proof.
  intros Hv Hfuel. pose proof Hv as [Hlo Hhi].
  eexists. split; [by apply run_valid_Z|].
  replace (Z.to_nat (noOfRouters a + 1)) with (S (Z.to_nat (noOfRouters a)))
    by lia.
  set (n := Z.to_nat (noOfRouters a)).
  set (d := NanoSeconds (delayNanoSeconds a)). set (r := runSeconds a).
  assert (1 <= n)%nat as Hn by lia.
  destruct (final_role_os d r n) as [Hos0 Hos1].
  replace (n + 1)%nat with (S n) in Hos1 by lia.
  split; [by apply final_addressing_first|].
  split; [by apply final_addressing_last|].
  split; [intros i Hi; apply final_addressing_interior; lia|].
  split.
  - destruct (final_link_device d r n Hn 0 ltac:(lia)) as [Hd0 Hd1].
    destruct (final_node_of d r n Hn 0 ltac:(lia)) as [Hn0 Hn1].
    exists 0%nat, 1%nat. repeat split; try done.
    apply final_role_router; lia.
  - destruct (final_link_device d r n Hn n ltac:(lia)) as [Hd0 Hd1].
    destruct (final_node_of d r n Hn n ltac:(lia)) as [Hn0 Hn1].
    exists (2 * n)%nat, (S (2 * n)). repeat split; try done.
    apply final_role_router; lia.
Qed.

Lemma addressing_pattern_witness :
  valid_count (noOfRouters (with_routers 3)) /\ (63 <= 63)%nat /\
  exists w, run 63 (with_routers 3) = inr (0, w)
    /\ link_addressing w 0 = Some (false, true)
    /\ link_addressing w 1 = Some (true, true)
    /\ link_addressing w 2 = Some (true, true)
    /\ link_addressing w 3 = Some (true, false).
Proof.
  assert (valid_count (noOfRouters (with_routers 3))) as Hv
    by (unfold valid_count; simpl; lia).
  split; [exact Hv|]. split; [lia|].
  destruct (addressing_pattern 63 (with_routers 3) Hv ltac:(lia))
    as (w & Hrun & Hfirst & Hlast & Hmid & _).
  exists w. split; [exact Hrun|]. split; [exact Hfirst|].
  split; [apply (Hmid 1%nat); simpl; lia|].
  split; [apply (Hmid 2%nat); simpl; lia|exact Hlast].
Defined.

(** C4, as stated, fails: with one router the link of OS endpoint 0 (the
    first link) and the link of OS endpoint 2 (the last link) are not one and
    the same link, whatever is said of a router-side device on it. *)
Lemma single_router_links_differ :
  ~ (exists w l dev,
       run 63 (with_routers 1) = inr (0, w)
       /\ links_of_node w 0 = [l] /\ links_of_node w 2 = [l]
       /\ (link_device w l 0 = Some dev \/ link_device w l 1 = Some dev)
       /\ node_of w dev = Some 1%nat
       /\ length (addresses_of w dev) = 1%nat).
Proof.
  intros (w & l & dev & Hrun & Hfirst & Hlast & _).
  rewrite (run_valid 63 (with_routers 1) 1) in Hrun by (simpl; lia).
  injection Hrun as <-. vm_compute in Hfirst, Hlast. congruence.
Qed.

(** C4, amended. With one router the first link (link 0, on OS endpoint 0)
    and the last link (link 1, on OS endpoint 2) are two links that meet in
    the router; the router has one device on each (device 1 of link 0 and
    device 0 of link 1), each of which holds exactly one address, 172.20.0.1
    and 172.20.1.1; no device holds more than one. *)
Theorem single_router_addressing (fuel : nat) (a : Args) :
  noOfRouters a = 1 -> (63 <= fuel)%nat ->
  exists w, run fuel a = inr (0, w)
    /\ links_of_node w 0 = [0%nat]
    /\ links_of_node w 2 = [1%nat]
    /\ links_of_node w 1 = [0%nat; 1%nat]
    /\ link_device w 0 1 = Some 1%nat /\ node_of w 1 = Some 1%nat
    /\ link_device w 1 0 = Some 2%nat /\ node_of w 2 = Some 1%nat
    /\ addresses_of w 1
       = [{| ifa_device := 1; ifa_local := ipv4 172 20 0 1;
             ifa_mask := ipv4 255 255 255 0 |}]
    /\ addresses_of w 2
       = [{| ifa_device := 2; ifa_local := ipv4 172 20 1 1;
             ifa_mask := ipv4 255 255 255 0 |}]
    /\ forall dev, (length (addresses_of w dev) <= 1)%nat.
Proof.
  intros Hone Hfuel.
  eexists. split; [apply (run_valid fuel a 1); [done|lia|done]|].
  repeat (split; [reflexivity|]).
  intros dev. unfold addresses_of. cbn [final_world w_addrs interior_addrs app Nat.sub].
  rewrite !filter_cons, filter_nil. cbn [ifa_device addr_of].
  repeat case_decide; cbn [length]; lia.
Qed.

Lemma single_router_addressing_witness :
  noOfRouters default_args = 1 /\ (63 <= 63)%nat /\
  exists w, run 63 default_args = inr (0, w)
    /\ links_of_node w 0 = [0%nat]
    /\ links_of_node w 2 = [1%nat]
    /\ length (addresses_of w 1) = 1%nat
    /\ length (addresses_of w 2) = 1%nat.
Proof.
  split; [reflexivity|]. split; [lia|].
  destruct (single_router_addressing 63 default_args eq_refl ltac:(lia))
    as (w & Hrun & Hfirst & Hlast & _ & _ & _ & _ & _ & Ha1 & Ha2 & _).
  exists w. rewrite Ha1, Ha2. auto.
Defined.

(** C5. With one router the run builds 3 nodes (OS endpoint, router, OS
    endpoint) and 2 links; the addresses assigned lie in exactly the two
    blocks 172.20.0.0/24 and 172.20.1.0/24, one per link; the router's device
    is addressed on both links and the two OS-facing devices (device 0 of the
    first link on node 0, device 1 of the last link on node 2) are not. *)
Theorem build_one_router (fuel : nat) (a : Args) :
  noOfRouters a = 1 -> (63 <= fuel)%nat ->
  exists w, run fuel a = inr (0, w)
    /\ w_nodes w = 3%nat
    /\ role w <$> [0; 1; 2]%nat
       = [Some OsBridgeEndpoint; Some Router; Some OsBridgeEndpoint]
    /\ length (w_channels w) = 2%nat
    /\ block_of <$> w_addrs w
       = [{| sb_network := ipv4 172 20 0 0; sb_mask := ipv4 255 255 255 0 |};
          {| sb_network := ipv4 172 20 1 0; sb_mask := ipv4 255 255 255 0 |}]
    /\ link_blocks w 0
       = [{| sb_network := ipv4 172 20 0 0; sb_mask := ipv4 255 255 255 0 |}]
    /\ link_blocks w 1
       = [{| sb_network := ipv4 172 20 1 0; sb_mask := ipv4 255 255 255 0 |}]
    /\ link_addressing w 0 = Some (false, true)
    /\ link_addressing w 1 = Some (true, false)
    /\ (node_of w <$> [0; 1; 2; 3]%nat) = [Some 0; Some 1; Some 1; Some 2]%nat
    /\ (link_device w 0 <$> [0; 1]%nat) = [Some 0; Some 1]%nat
    /\ (link_device w 1 <$> [0; 1]%nat) = [Some 2; Some 3]%nat.
Proof.
  intros Hone Hfuel.
  eexists. split; [apply (run_valid fuel a 1); [done|lia|done]|].
  repeat split; reflexivity.
Qed.

Lemma build_one_router_witness :
  noOfRouters default_args = 1 /\ (63 <= 63)%nat /\
  exists w, run 63 default_args = inr (0, w)
    /\ w_nodes w = 3%nat /\ length (w_channels w) = 2%nat
    /\ length (w_addrs w) = 2%nat.
Proof.
  split; [reflexivity|]. split; [lia|].
  destruct (build_one_router 63 default_args eq_refl ltac:(lia))
    as (w & Hrun & Hnodes & _ & Hlinks & Hblocks & _).
  exists w. repeat split; try assumption.
  rewrite <- (length_fmap block_of), Hblocks. reflexivity.
Defined.

(** C6. With a router count of 0 or above 63 the run ends with exit code
    1 and the logged error, and nothing was built: no node, stack, device,
    link, address or tap bridge exists and no simulator call was made. *)
Theorem invalid_count_rejected (fuel : nat) (a : Args) :
  noOfRouters a = 0 \/ 63 < noOfRouters a ->
  exists w, run fuel a = inr (1, w)
    /\ w_log w = ["Invalid router count"]
    /\ w_nodes w = 0%nat /\ w_ipv4 w = [] /\ w_devices w = []
    /\ w_channels w = [] /\ w_addrs w = [] /\ w_taps w = []
    /\ w_trace w = [].
Proof.
  intros Hbad. exists rejected_world. split; [by apply run_invalid|].
  repeat split; reflexivity.
Qed.

Lemma invalid_count_rejected_witness :
  (noOfRouters (with_routers 64) = 0 \/ 63 < noOfRouters (with_routers 64)) /\
  exists w, run 0 (with_routers 64) = inr (1, w)
    /\ w_nodes w = 0%nat /\ w_channels w = [] /\ w_taps w = [].
Proof.
  assert (noOfRouters (with_routers 64) = 0 \/ 63 < noOfRouters (with_routers 64))
    as Hbad by (right; simpl; lia).
  split; [exact Hbad|].
  destruct (invalid_count_rejected 0 (with_routers 64) Hbad)
    as (w & Hrun & _ & Hnodes & _ & _ & Hch & _ & Htaps & _).
  exists w. auto.
Defined.

(** C7. For every valid router count exactly two tap bridges are
    installed, in this order: "ns3_em0" on node 0 over device 0 of the first
    link, and "ns3_em1" on node [routerCount + 1] over device 1 of the last
    link; both devices sit on the OS bridge endpoints. *)
Theorem tap_devices (fuel : nat) (a : Args) :
  valid_count (noOfRouters a) -> (63 <= fuel)%nat ->
  exists w first_dev last_dev,
    run fuel a = inr (0, w)
    /\ link_device w 0 0 = Some first_dev
    /\ node_of w first_dev = Some 0%nat
    /\ role w 0 = Some OsBridgeEndpoint
    /\ link_device w (Z.to_nat (noOfRouters a)) 1 = Some last_dev
    /\ node_of w last_dev = Some (Z.to_nat (noOfRouters a + 1))
    /\ role w (Z.to_nat (noOfRouters a + 1)) = Some OsBridgeEndpoint
    /\ w_taps w
       = [{| tap_node := 0; tap_bridged := first_dev;
             tap_mode := "UseBridge"; tap_deviceName := "ns3_em0" |};
          {| tap_node := Z.to_nat (noOfRouters a + 1); tap_bridged := last_dev;
             tap_mode := "UseBridge"; tap_deviceName := "ns3_em1" |}].
Proof.
  intros Hv Hfuel. pose proof Hv as [Hlo Hhi].
  replace (Z.to_nat (noOfRouters a + 1)) with (Z.to_nat (noOfRouters a) + 1)%nat
    by lia.
  set (n := Z.to_nat (noOfRouters a)).
  set (d := NanoSeconds (delayNanoSeconds a)). set (r := runSeconds a).
  assert (1 <= n)%nat as Hn by lia.
  exists (final_world d r n), (2 * 0)%nat, (S (2 * n)).
  split; [by apply run_valid_Z|].
  destruct (final_role_os d r n) as [Hos0 Hos1].
  destruct (final_link_device d r n Hn 0 ltac:(lia)) as [Hd0 _].
  destruct (final_node_of d r n Hn 0 ltac:(lia)) as [Hn0 _].
  destruct (final_link_device d r n Hn n ltac:(lia)) as [_ Hd1].
  destruct (final_node_of d r n Hn n ltac:(lia)) as [_ Hn1].
  replace (S n) with (n + 1)%nat in Hn1 by lia.
  repeat split; done.
Qed.

Lemma tap_devices_witness :
  valid_count (noOfRouters (with_routers 3)) /\ (63 <= 63)%nat /\
  exists w first_dev last_dev,
    run 63 (with_routers 3) = inr (0, w)
    /\ link_device w 0 0 = Some first_dev
    /\ link_device w 3 1 = Some last_dev
    /\ (tap_bridged <$> w_taps w) = [first_dev; last_dev].
Proof.
  assert (valid_count (noOfRouters (with_routers 3))) as Hv
    by (unfold valid_count; simpl; lia).
  split; [exact Hv|]. split; [lia|].
  destruct (tap_devices 63 (with_routers 3) Hv ltac:(lia))
    as (w & d0 & d1 & Hrun & Hd0 & _ & _ & Hd1 & _ & _ & Htaps).
  exists w, d0, d1. rewrite Htaps. auto.
Defined.

Lemma interior_events_build (k : nat) :
  Forall (fun e => is_build_event e = true) (interior_events k).
Proof.
  induction k as [|k IH]; cbn [interior_events]; [constructor|].
  apply Forall_app. split; [exact IH|]. unfold link_events.
  repeat constructor.
Qed.

Lemma interior_assign_logged (k : nat) (x : Ipv4InterfaceAddress) :
  x ∈ interior_addrs k ->
  EvAssign (ifa_device x) (ifa_local x) (ifa_mask x) ∈ interior_events k.
Proof.
  induction k as [|k IH]; cbn [interior_addrs interior_events]; intros Hx.
  - by apply elem_of_nil in Hx.
  - apply elem_of_app in Hx as [Hx|Hx]; apply elem_of_app; [left; auto|right].
    unfold link_addrs in Hx. unfold link_events.
    apply elem_of_cons in Hx as [->|Hx];
      [apply elem_of_cons; right; apply elem_of_cons; by left|].
    apply elem_of_cons in Hx as [->|Hx];
      [do 2 (apply elem_of_cons; right); apply elem_of_cons; by left|].
    by apply elem_of_nil in Hx.
Qed.

Lemma final_trace_split (delay seconds : Z) (n : nat) :
  w_trace (final_world delay seconds n)
  = build_events n ++
    EvPopulateRoutingTables :: [EvStop seconds; EvRun; EvDestroy].
Proof.
  unfold build_events, closing_events. cbn [final_world w_trace closing_events].
  rewrite <- !app_assoc. cbn [app]. rewrite <- !app_assoc. reflexivity.
Qed.

Lemma build_events_build (n : nat) :
  Forall (fun e => is_build_event e = true) (build_events n).
Proof.
  unfold build_events. apply Forall_app. split; [repeat constructor|].
  apply Forall_app. split.
  { apply Forall_forall. intros e He.
    apply list_elem_of_fmap in He as (i & -> & _). reflexivity. }
  constructor; [reflexivity|].
  apply Forall_app. split; [apply interior_events_build|repeat constructor].
Qed.

Lemma final_assign_logged (delay seconds : Z) (n : nat)
    (x : Ipv4InterfaceAddress) :
  x ∈ w_addrs (final_world delay seconds n) ->
  EvAssign (ifa_device x) (ifa_local x) (ifa_mask x) ∈ build_events n.
Proof.
  cbn [final_world w_addrs]. unfold build_events. intros Hx.
  apply elem_of_app; right. apply elem_of_app; right.
  apply elem_of_cons in Hx as [->|Hx]; [apply elem_of_cons; by left|].
  apply elem_of_cons; right.
  apply elem_of_app in Hx as [Hx|Hx]; apply elem_of_app.
  - left. by apply interior_assign_logged.
  - right. apply list_elem_of_singleton in Hx as ->.
    apply elem_of_cons; right. apply elem_of_cons; by left.
Qed.

(** C8. On every successful run the routing tables are populated exactly
    once: the call splits the trace into a part before it, which holds the
    assignment of every address and no [Simulator::Run], and a part after it,
    which holds [Simulator::Run] and no assignment. At least one router
    exists then; a run with zero routers is rejected before any call. *)
Theorem routing_once (fuel : nat) (a : Args) :
  valid_count (noOfRouters a) -> (63 <= fuel)%nat ->
  (exists w before after,
     run fuel a = inr (0, w)
     /\ w_trace w = before ++ EvPopulateRoutingTables :: after
     /\ (EvPopulateRoutingTables ∉ before)
     /\ (EvPopulateRoutingTables ∉ after)
     /\ (forall x, x ∈ w_addrs w ->
           EvAssign (ifa_device x) (ifa_local x) (ifa_mask x) ∈ before)
     /\ (forall e, e ∈ after -> is_assign e = false)
     /\ (EvRun ∉ before)
     /\ (EvRun ∈ after)
     /\ w_ipv4 w <> [])
  /\ (forall a0 : Args,
        noOfRouters a0 = 0 ->
        exists w0, run fuel a0 = inr (1, w0) /\ w_trace w0 = []).
Proof.
  intros Hv Hfuel. pose proof Hv as [Hlo Hhi]. split.
  - set (n := Z.to_nat (noOfRouters a)).
    set (d := NanoSeconds (delayNanoSeconds a)). set (r := runSeconds a).
    exists (final_world d r n), (build_events n), [EvStop r; EvRun; EvDestroy].
    pose proof (build_events_build n) as Hbuild.
    rewrite Forall_forall in Hbuild.
    split; [by apply run_valid_Z|].
    split; [apply final_trace_split|].
    split; [intros Hin; by apply Hbuild in Hin|].
    split.
    { rewrite !elem_of_cons, elem_of_nil. intros [?|[?|[?|?]]]; done. }
    split; [apply final_assign_logged|].
    split.
    { intros e. rewrite !elem_of_cons, elem_of_nil.
      intros [->|[->|[->|?]]]; done. }
    split; [intros Hin; by apply Hbuild in Hin|].
    split; [apply elem_of_cons; right; apply elem_of_cons; by left|].
    assert (1 <= n)%nat as Hn by lia. clearbody n.
    cbn [final_world w_ipv4]. destruct n as [|m]; [lia|]. done.
  - intros a0 Hzero. exists rejected_world. split; [|reflexivity].
    apply run_invalid. by left.
Qed.

Lemma routing_once_witness :
  valid_count (noOfRouters (with_routers 3)) /\ (63 <= 63)%nat /\
  exists w before after,
    run 63 (with_routers 3) = inr (0, w)
    /\ w_trace w = before ++ EvPopulateRoutingTables :: after
    /\ (EvPopulateRoutingTables ∉ before)
    /\ (EvPopulateRoutingTables ∉ after)
    /\ (EvRun ∈ after).
Proof.
  assert (valid_count (noOfRouters (with_routers 3))) as Hv
    by (unfold valid_count; simpl; lia).
  split; [exact Hv|]. split; [lia|].
  destruct (routing_once 63 (with_routers 3) Hv ltac:(lia))
    as [(w & before & after & Hrun & Htrace & Hb & Ha & _ & _ & _ & Hr & _) _].
  exists w, before, after. auto.
Defined.

(** C9. For every valid router count the Ipv4 stack is installed on
    exactly the nodes [1 .. routerCount], so on neither node 0 nor node
    [routerCount + 1]. *)
Theorem stacks_on_routers (fuel : nat) (a : Args) :
  valid_count (noOfRouters a) -> (63 <= fuel)%nat ->
  exists w, run fuel a = inr (0, w)
    /\ (forall i : nat, i ∈ w_ipv4 w <-> 1 <= Z.of_nat i <= noOfRouters a)
    /\ (0%nat ∉ w_ipv4 w)
    /\ (Z.to_nat (noOfRouters a + 1) ∉ w_ipv4 w)
    /\ (forall i : nat,
          EvStackInstall i ∈ w_trace w <-> 1 <= Z.of_nat i <= noOfRouters a).
Proof.
  intros Hv Hfuel. pose proof Hv as [Hlo Hhi].
  eexists. split; [by apply run_valid_Z|].
  cbn [final_world w_ipv4 w_trace].
  split; [intros i; rewrite elem_of_seq; lia|].
  split; [rewrite elem_of_seq; lia|].
  split; [rewrite elem_of_seq; lia|].
  intros i. pose proof (interior_events_build (Z.to_nat (noOfRouters a) - 1)) as Hint.
  rewrite Forall_forall in Hint.
  rewrite elem_of_app, elem_of_app, list_elem_of_fmap.
  split.
  - intros [Hin|[(j & Heq & Hj)|Hin]].
    + unfold config_events in Hin. rewrite !elem_of_cons, elem_of_nil in Hin.
      destruct Hin as [?|[?|[?|[?|[?|?]]]]]; done.
    + injection Heq as ->. apply elem_of_seq in Hj. lia.
    + apply elem_of_cons in Hin as [?|Hin]; [done|].
      apply elem_of_app in Hin as [Hin|Hin].
      * exfalso. revert Hin. clear. generalize (Z.to_nat (noOfRouters a) - 1)%nat.
        intros k. induction k as [|k IH]; cbn [interior_events].
        -- apply not_elem_of_nil.
        -- rewrite elem_of_app. intros [?|Hin]; [done|].
           unfold link_events in Hin. rewrite !elem_of_cons, elem_of_nil in Hin.
           destruct Hin as [?|[?|[?|?]]]; done.
      * unfold closing_events in Hin. rewrite !elem_of_cons, elem_of_nil in Hin.
        destruct Hin as [?|[?|[?|[?|[?|[?|[?|[?|?]]]]]]]]; done.
  - intros Hi. right; left. exists i. split; [done|]. apply elem_of_seq. lia.
Qed.

Lemma stacks_on_routers_witness :
  valid_count (noOfRouters (with_routers 3)) /\ (63 <= 63)%nat /\
  exists w, run 63 (with_routers 3) = inr (0, w)
    /\ (2%nat ∈ w_ipv4 w) /\ (0%nat ∉ w_ipv4 w) /\ (4%nat ∉ w_ipv4 w).
Proof.
  assert (valid_count (noOfRouters (with_routers 3))) as Hv
    by (unfold valid_count; simpl; lia).
  split; [exact Hv|]. split; [lia|].
  destruct (stacks_on_routers 63 (with_routers 3) Hv ltac:(lia))
    as (w & Hrun & Hiff & H0 & Hlast & _).
  exists w. split; [exact Hrun|].
  split; [apply Hiff; simpl; lia|]. split; [exact H0|exact Hlast].
Defined.

(** C10. For every valid router count each of the [routerCount + 1]
    links has the data rate "1000Mbps" and the one delay given on the command
    line. *)
Theorem uniform_link_attributes (fuel : nat) (a : Args) :
  valid_count (noOfRouters a) -> (63 <= fuel)%nat ->
  exists w, run fuel a = inr (0, w)
    /\ Z.of_nat (length (w_channels w)) = noOfRouters a + 1
    /\ forall c, c ∈ w_channels w ->
         ch_dataRate c = "1000Mbps"
         /\ ch_delay c = NanoSeconds (delayNanoSeconds a).
Proof.
  intros Hv Hfuel. pose proof Hv as [Hlo Hhi].
  eexists. split; [by apply run_valid_Z|].
  cbn [final_world w_channels].
  split; [rewrite length_chain_channels; lia|].
  generalize (Z.to_nat (noOfRouters a) + 1)%nat. intros k c.
  induction k as [|k IH]; cbn [chain_channels].
  - intros Hc. by apply elem_of_nil in Hc.
  - rewrite elem_of_app. intros [Hc|Hc]; [auto|].
    apply list_elem_of_singleton in Hc as ->. done.
Qed.

Lemma uniform_link_attributes_witness :
  valid_count (noOfRouters (with_routers 3)) /\ (63 <= 63)%nat /\
  exists w, run 63 (with_routers 3) = inr (0, w)
    /\ Z.of_nat (length (w_channels w)) = 4
    /\ forall c, c ∈ w_channels w ->
         ch_dataRate c = "1000Mbps" /\ ch_delay c = NanoSeconds 50000.
Proof.
  assert (valid_count (noOfRouters (with_routers 3))) as Hv
    by (unfold valid_count; simpl; lia).
  split; [exact Hv|]. split; [lia|].
  destruct (uniform_link_attributes 63 (with_routers 3) Hv ltac:(lia))
    as (w & Hrun & Hlen & Hall).
  exists w. auto.
Defined.

(** ** Further properties of a run *)

Lemma chain_links_of_node (k x : nat) :
  dev_channel <$> filter (fun d => dev_node d = x) (chain_devices k)
  = (if decide (1 <= x <= k)%nat then [(x - 1)%nat] else []) ++
    (if decide (x < k)%nat then [x] else []).
Proof.
  induction k as [|k IH]; cbn [chain_devices].
  - rewrite filter_nil. repeat case_decide; try lia. done.
  - rewrite filter_app, fmap_app, IH. unfold link_devices.
    rewrite !filter_cons, filter_nil. cbn [dev_node].
    repeat case_decide; try lia; subst; cbn [fmap list_fmap dev_channel app];
      try done.
    all: replace (S k - 1)%nat with k by lia; done.
Qed.

Lemma length_interior_addrs (k : nat) :
  length (interior_addrs k) = (2 * k)%nat.
Proof. induction k; cbn [interior_addrs]; [done|]. rewrite length_app, IHk. simpl. lia. Qed.

Lemma chain_channels_two_devices (d : Z) (k : nat) (c : CsmaChannel) :
  c ∈ chain_channels d k -> length (ch_devices c) = 2%nat.
Proof.
  induction k as [|k IH]; cbn [chain_channels]; intros Hc.
  - by apply elem_of_nil in Hc.
  - apply elem_of_app in Hc as [Hc|Hc]; [auto|].
    by apply list_elem_of_singleton in Hc as ->.
Qed.


Lemma interior_locals_NoDup (k : nat) :
  (k < 255)%nat ->
  NoDup (ifa_local <$> (addr_of 1 0 1 :: interior_addrs k)).
Proof.
  induction k as [|k IH]; intros Hk.
  - cbn. apply NoDup_singleton.
  - cbn [interior_addrs]. rewrite app_comm_cons, fmap_app.
    apply NoDup_app. split; [apply IH; lia|]. split.
    + intros x Hx Hin. unfold link_addrs in Hin. cbn [fmap list_fmap ifa_local addr_of] in Hin.
      apply elem_of_cons in Hin as [->|Hin].
      { revert Hx. apply (host_fresh k (S k) 1); lia. }
      apply elem_of_cons in Hin as [->|Hin].
      { revert Hx. apply (host_fresh k (S k) 2); lia. }
      by apply elem_of_nil in Hin.
    + unfold link_addrs. cbn [fmap list_fmap ifa_local addr_of].
      apply NoDup_cons. split; [|apply NoDup_singleton].
      rewrite list_elem_of_singleton.
      destruct (host_facts (S k) 1 ltac:(lia) ltac:(lia)) as (_ & -> & _).
      destruct (host_facts (S k) 2 ltac:(lia) ltac:(lia)) as (_ & -> & _).
      lia.
Qed.

(** X1. For every router count a [uint16_t] can hold, [main] returns: no
    ns-3 call aborts and no loop fails to end. The exit code is 0 exactly for
    counts in [1,63] and 1 exactly for 0 and for counts above 63; the error
    message is logged exactly on the runs that exit with 1. *)
Theorem exit_code_classifies_count (fuel : nat) (a : Args) :
  0 <= noOfRouters a < 65536 -> (63 <= fuel)%nat ->
  exists code w, run fuel a = inr (code, w)
    /\ (code = 0 <-> 1 <= noOfRouters a <= 63)
    /\ (code = 1 <-> noOfRouters a = 0 \/ 63 < noOfRouters a)
    /\ (w_log w = [] <-> code = 0)
    /\ (w_log w = ["Invalid router count"] <-> code = 1).
Proof.
  intros Hrange Hfuel.
  destruct (decide (1 <= noOfRouters a <= 63)) as [Hv|Hv].
  - exists 0. eexists. split; [by apply run_valid_Z|].
    cbn [final_world w_log]. repeat split; intros; try done; lia.
  - exists 1, rejected_world. split; [apply run_invalid; lia|].
    cbn [rejected_world w_log]. repeat split; intros; try done; lia.
Qed.

Lemma exit_code_classifies_count_witness :
  0 <= noOfRouters (with_routers 64) < 65536 /\ (63 <= 63)%nat /\
  exists w, run 63 (with_routers 64) = inr (1, w)
    /\ w_log w = ["Invalid router count"].
Proof.
  assert (0 <= noOfRouters (with_routers 64) < 65536) as Hr by (simpl; lia).
  split; [exact Hr|]. split; [lia|].
  destruct (exit_code_classifies_count 63 (with_routers 64) Hr ltac:(lia))
    as (code & w & Hrun & _ & Hone & _ & Hlog).
  assert (code = 1) as Hcode by (apply Hone; right; simpl; lia).
  exists w. split; [by rewrite <- Hcode|]. by apply Hlog.
Defined.

(** X2. For every valid router count the links form a path: there are
    [2 (routerCount + 1)] devices, two on every link; node 0 is attached to
    link 0 only, node [routerCount + 1] to the last link only, router [i] to
    the links [i - 1] and [i] and to no other, and no further node is
    attached to any link. *)
Theorem chain_is_path (fuel : nat) (a : Args) :
  valid_count (noOfRouters a) -> (63 <= fuel)%nat ->
  exists w, run fuel a = inr (0, w)
    /\ Z.of_nat (length (w_devices w)) = 2 * (noOfRouters a + 1)
    /\ (forall c, c ∈ w_channels w -> length (ch_devices c) = 2%nat)
    /\ links_of_node w 0 = [0%nat]
    /\ links_of_node w (Z.to_nat (noOfRouters a + 1))
       = [Z.to_nat (noOfRouters a)]
    /\ (forall i : nat,
          1 <= Z.of_nat i <= noOfRouters a ->
          links_of_node w i = [(i - 1)%nat; i])
    /\ (forall i : nat,
          noOfRouters a + 1 < Z.of_nat i -> links_of_node w i = []).
Proof.
  intros Hv Hfuel. pose proof Hv as [Hlo Hhi].
  eexists. split; [by apply run_valid_Z|].
  unfold links_of_node. cbn [final_world w_devices w_channels].
  split; [rewrite length_chain_devices; lia|].
  split; [apply chain_channels_two_devices|].
  set (n := Z.to_nat (noOfRouters a)).
  replace (Z.to_nat (noOfRouters a + 1)) with (n + 1)%nat by lia.
  split; [|split; [|split]].
  - rewrite chain_links_of_node. repeat case_decide; try lia. done.
  - rewrite chain_links_of_node. repeat case_decide; try lia.
    cbn [app]. f_equal. lia.
  - intros i Hi. rewrite chain_links_of_node. repeat case_decide; try lia. done.
  - intros i Hi. rewrite chain_links_of_node. repeat case_decide; try lia. done.
Qed.

Lemma chain_is_path_witness :
  valid_count (noOfRouters (with_routers 3)) /\ (63 <= 63)%nat /\
  exists w, run 63 (with_routers 3) = inr (0, w)
    /\ links_of_node w 0 = [0%nat]
    /\ links_of_node w 2 = [1%nat; 2%nat]
    /\ links_of_node w 4 = [3%nat].
Proof.
  assert (valid_count (noOfRouters (with_routers 3))) as Hv
    by (unfold valid_count; simpl; lia).
  split; [exact Hv|]. split; [lia|].
  destruct (chain_is_path 63 (with_routers 3) Hv ltac:(lia))
    as (w & Hrun & _ & _ & Hfirst & Hlast & Hmid & _).
  exists w. split; [exact Hrun|]. split; [exact Hfirst|].
  split; [apply (Hmid 2%nat); simpl; lia|exact Hlast].
Defined.

(** X3. For every valid router count the addresses are: 172.20.0.1 on
    device 1 of the first link; on link [i >= 1], 172.20.i.1 on device 0
    (router [i]) and, when the link is interior, 172.20.i.2 on device 1
    (router [i + 1]); all with mask 255.255.255.0; nothing on device 0 of the
    first link and on device 1 of the last. *)
Theorem interface_addresses (fuel : nat) (a : Args) :
  valid_count (noOfRouters a) -> (63 <= fuel)%nat ->
  exists w, run fuel a = inr (0, w)
    /\ device_addresses w 0 0 = Some []
    /\ device_addresses w 0 1
       = Some [(ipv4 172 20 0 1, ipv4 255 255 255 0)]
    /\ (forall i : nat,
          1 <= Z.of_nat i <= noOfRouters a ->
          device_addresses w i 0
          = Some [(ipv4 172 20 (Z.of_nat i) 1, ipv4 255 255 255 0)])
    /\ (forall i : nat,
          1 <= Z.of_nat i < noOfRouters a ->
          device_addresses w i 1
          = Some [(ipv4 172 20 (Z.of_nat i) 2, ipv4 255 255 255 0)])
    /\ device_addresses w (Z.to_nat (noOfRouters a)) 1 = Some [].
Proof.
  intros Hv Hfuel. pose proof Hv as [Hlo Hhi].
  eexists. split; [by apply run_valid_Z|].
  set (n := Z.to_nat (noOfRouters a)).
  set (d := NanoSeconds (delayNanoSeconds a)). set (r := runSeconds a).
  assert (1 <= n)%nat as Hn by lia.
  unfold device_addresses.
  split; [|split; [|split; [|split]]].
  - destruct (final_link_device d r n Hn 0 ltac:(lia)) as [-> _].
    cbn [mbind option_bind]. rewrite final_addresses_even by done.
    by case_decide; [lia|].
  - destruct (final_link_device d r n Hn 0 ltac:(lia)) as [_ ->].
    cbn [mbind option_bind]. rewrite final_addresses_odd by done.
    by case_decide.
  - intros i Hi. destruct (final_link_device d r n Hn i ltac:(lia)) as [-> _].
    cbn [mbind option_bind]. rewrite final_addresses_even by done.
    by case_decide; [|lia].
  - intros i Hi. destruct (final_link_device d r n Hn i ltac:(lia)) as [_ ->].
    cbn [mbind option_bind]. rewrite final_addresses_odd by done.
    repeat case_decide; try lia. done.
  - destruct (final_link_device d r n Hn n ltac:(lia)) as [_ ->].
    cbn [mbind option_bind]. rewrite final_addresses_odd by done.
    repeat case_decide; try lia. done.
Qed.

Lemma interface_addresses_witness :
  valid_count (noOfRouters (with_routers 3)) /\ (63 <= 63)%nat /\
  exists w, run 63 (with_routers 3) = inr (0, w)
    /\ device_addresses w 2 0 = Some [(ipv4 172 20 2 1, ipv4 255 255 255 0)]
    /\ device_addresses w 2 1 = Some [(ipv4 172 20 2 2, ipv4 255 255 255 0)]
    /\ device_addresses w 3 1 = Some [].
Proof.
  assert (valid_count (noOfRouters (with_routers 3))) as Hv
    by (unfold valid_count; simpl; lia).
  split; [exact Hv|]. split; [lia|].
  destruct (interface_addresses 63 (with_routers 3) Hv ltac:(lia))
    as (w & Hrun & _ & _ & Hleft & Hright & Hlast).
  exists w. split; [exact Hrun|].
  split; [apply (Hleft 2%nat); simpl; lia|].
  split; [apply (Hright 2%nat); simpl; lia|exact Hlast].
Defined.

(** X4. For every valid router count no IPv4 address is assigned twice,
    exactly [2 routerCount] addresses are assigned, no device holds more than
    one, and every one of them has the mask 255.255.255.0. *)
Theorem addresses_unique (fuel : nat) (a : Args) :
  valid_count (noOfRouters a) -> (63 <= fuel)%nat ->
  exists w, run fuel a = inr (0, w)
    /\ NoDup (ifa_local <$> w_addrs w)
    /\ Z.of_nat (length (w_addrs w)) = 2 * noOfRouters a
    /\ (forall dev, (length (addresses_of w dev) <= 1)%nat)
    /\ (forall x, x ∈ w_addrs w -> ifa_mask x = ipv4 255 255 255 0).
Proof.
  intros Hv Hfuel. pose proof Hv as [Hlo Hhi].
  eexists. split; [by apply run_valid_Z|].
  set (n := Z.to_nat (noOfRouters a)).
  set (d := NanoSeconds (delayNanoSeconds a)). set (r := runSeconds a).
  assert (1 <= n <= 63)%nat as Hn by lia.
  split; [|split; [|split]].
  - cbn [final_world w_addrs]. rewrite app_comm_cons, fmap_app.
    apply NoDup_app. split; [apply interior_locals_NoDup; lia|].
    split; [|apply NoDup_singleton].
    intros x Hx Hin. cbn [fmap list_fmap ifa_local addr_of] in Hin.
    apply list_elem_of_singleton in Hin as ->.
    revert Hx. apply (host_fresh (n - 1) n 1); lia.
  - cbn [final_world w_addrs length]. rewrite length_app, length_interior_addrs.
    cbn [length]. lia.
  - intros dev. destruct (Nat.Even_or_Odd dev) as [[i ->]|[i ->]].
    + rewrite final_addresses_even by lia. case_decide; cbn [length]; lia.
    + replace (2 * i + 1)%nat with (S (2 * i)) by lia.
      rewrite final_addresses_odd by lia. repeat case_decide; cbn [length]; lia.
  - cbn [final_world w_addrs]. intros x Hx.
    apply elem_of_cons in Hx as [->|Hx]; [done|].
    apply elem_of_app in Hx as [Hx|Hx].
    + by apply interior_addrs_elem in Hx as (i & _ & [->| ->]).
    + by apply list_elem_of_singleton in Hx as ->.
Qed.

Lemma addresses_unique_witness :
  valid_count (noOfRouters (with_routers 3)) /\ (63 <= 63)%nat /\
  exists w, run 63 (with_routers 3) = inr (0, w)
    /\ NoDup (ifa_local <$> w_addrs w)
    /\ Z.of_nat (length (w_addrs w)) = 6.
Proof.
  assert (valid_count (noOfRouters (with_routers 3))) as Hv
    by (unfold valid_count; simpl; lia).
  split; [exact Hv|]. split; [lia|].
  destruct (addresses_unique 63 (with_routers 3) Hv ltac:(lia))
    as (w & Hrun & Hnodup & Hlen & _).
  exists w. auto.
Defined.

Lemma interior_events_Forall (P : Event -> Prop) (k : nat) :
  (forall i, Forall P (link_events i)) -> Forall P (interior_events k).
Proof.
  intros Hlink. induction k as [|k IH]; cbn [interior_events]; [constructor|].
  apply Forall_app. split; [exact IH|apply Hlink].
Qed.

Lemma filter_stack_installs (l : list nat) :
  filter (fun e => is_stack_install e = true) (map EvStackInstall l)
  = map EvStackInstall l.
Proof.
  induction l as [|i l IH]; [done|]. cbn [map]. rewrite filter_cons.
  cbn [is_stack_install]. case_decide; [by rewrite IH|done].
Qed.

(** X5. On every successful run the trace starts with the two global
    bindings, the synchronization default and the one creation of
    [routerCount + 2] nodes, none of which occurs again; in the rest, all
    [routerCount] stack installations come before the first address
    assignment. *)
Theorem configuration_and_stacks_first (fuel : nat) (a : Args) :
  valid_count (noOfRouters a) -> (63 <= fuel)%nat ->
  exists w early late,
    run fuel a = inr (0, w)
    /\ w_trace w
       = [EvBind "SimulatorImplementationType" "ns3::RealtimeSimulatorImpl";
          EvBind "ChecksumEnabled" "true";
          EvSetDefault "ns3::RealtimeSimulatorImpl::SynchronizationMode"
            "BestEffort";
          EvCreateNodes (Z.to_nat (noOfRouters a + 2))] ++ early ++ late
    /\ (forall e, e ∈ early ++ late -> is_config_event e = false)
    /\ (forall e, e ∈ early -> is_assign e = false)
    /\ (forall e, e ∈ late -> is_stack_install e = false)
    /\ Z.of_nat (length (filter (fun e => is_stack_install e = true) early))
       = noOfRouters a.
Proof.
  intros Hv Hfuel. pose proof Hv as [Hlo Hhi].
  set (n := Z.to_nat (noOfRouters a)).
  set (d := NanoSeconds (delayNanoSeconds a)). set (r := runSeconds a).
  exists (final_world d r n),
    (EvCsmaInstall 0 :: map EvStackInstall (seq 1 n)),
    (EvAssign 1 (host 0 1) mask24 :: interior_events (n - 1) ++
     closing_events n r).
  split; [by apply run_valid_Z|].
  replace (Z.to_nat (noOfRouters a + 2)) with (n + 2)%nat by lia.
  split; [reflexivity|].
  assert (forall P : Event -> Prop,
            P (EvAssign 1 (host 0 1) mask24) ->
            (forall i, Forall P (link_events i)) ->
            Forall P (closing_events n r) ->
            Forall P (EvAssign 1 (host 0 1) mask24 :: interior_events (n - 1) ++
                      closing_events n r)) as Hlate.
  { intros P H1 Hlink Hclose. constructor; [exact H1|].
    apply Forall_app. split; [by apply interior_events_Forall|exact Hclose]. }
  assert (forall P : Event -> Prop,
            P (EvCsmaInstall 0) -> (forall i, P (EvStackInstall i)) ->
            Forall P (EvCsmaInstall 0 :: map EvStackInstall (seq 1 n)))
    as Hearly.
  { intros P H0 Hst. constructor; [exact H0|].
    apply Forall_forall. intros e He.
    apply list_elem_of_fmap in He as (i & -> & _). apply Hst. }
  split; [|split; [|split]].
  - apply Forall_forall, Forall_app. split.
    + by apply Hearly.
    + apply Hlate; [done|intros i|]; repeat constructor.
  - apply Forall_forall. by apply Hearly.
  - apply Forall_forall. apply Hlate; [done|intros i|]; repeat constructor.
  - rewrite filter_cons. cbn [is_stack_install].
    case_decide; [done|].
    rewrite filter_stack_installs, length_map, length_seq. lia.
Qed.

Lemma configuration_and_stacks_first_witness :
  valid_count (noOfRouters (with_routers 3)) /\ (63 <= 63)%nat /\
  exists w early late,
    run 63 (with_routers 3) = inr (0, w)
    /\ w_trace w
       = [EvBind "SimulatorImplementationType" "ns3::RealtimeSimulatorImpl";
          EvBind "ChecksumEnabled" "true";
          EvSetDefault "ns3::RealtimeSimulatorImpl::SynchronizationMode"
            "BestEffort";
          EvCreateNodes 5] ++ early ++ late
    /\ (forall e, e ∈ early -> is_assign e = false)
    /\ (forall e, e ∈ late -> is_stack_install e = false).
Proof.
  assert (valid_count (noOfRouters (with_routers 3))) as Hv
    by (unfold valid_count; simpl; lia).
  split; [exact Hv|]. split; [lia|].
  destruct (configuration_and_stacks_first 63 (with_routers 3) Hv ltac:(lia))
    as (w & early & late & Hrun & Htrace & _ & Hearly & Hlate & _).
  exists w, early, late. auto.
Defined.

(** X6. On every successful run the trace ends with: the tap bridge
    "ns3_em0" on node 0 over device 0 of the first link, the tap bridge
    "ns3_em1" on node [routerCount + 1] over device 1 of the last link, the
    routing computation, [Stop] at the configured run time, [Run], [Destroy];
    none of these kinds of call occurs before, so every link is created and
    addressed before the first bridge is attached. *)
Theorem closing_sequence (fuel : nat) (a : Args) :
  valid_count (noOfRouters a) -> (63 <= fuel)%nat ->
  exists w body first_dev last_dev,
    run fuel a = inr (0, w)
    /\ link_device w 0 0 = Some first_dev
    /\ link_device w (Z.to_nat (noOfRouters a)) 1 = Some last_dev
    /\ w_trace w
       = body ++
         [EvTapInstall 0 first_dev "ns3_em0";
          EvTapInstall (Z.to_nat (noOfRouters a + 1)) last_dev "ns3_em1";
          EvPopulateRoutingTables; EvStop (runSeconds a); EvRun; EvDestroy]
    /\ (forall e, e ∈ body -> is_closing_event e = false).
Proof.
  intros Hv Hfuel. pose proof Hv as [Hlo Hhi].
  replace (Z.to_nat (noOfRouters a + 1)) with (Z.to_nat (noOfRouters a) + 1)%nat
    by lia.
  set (n := Z.to_nat (noOfRouters a)).
  set (d := NanoSeconds (delayNanoSeconds a)). set (r := runSeconds a).
  assert (1 <= n)%nat as Hn by lia.
  exists (final_world d r n),
    (config_events n ++ map EvStackInstall (seq 1 n) ++
     EvAssign 1 (host 0 1) mask24 :: interior_events (n - 1) ++
     [EvCsmaInstall n; EvAssign (2 * n) (host n 1) mask24]),
    (2 * 0)%nat, (S (2 * n)).
  split; [by apply run_valid_Z|].
  destruct (final_link_device d r n Hn 0 ltac:(lia)) as [Hd0 _].
  destruct (final_link_device d r n Hn n ltac:(lia)) as [_ Hd1].
  split; [exact Hd0|]. split; [exact Hd1|]. split.
  - cbn [final_world w_trace]. unfold closing_events.
    rewrite <- !app_assoc. cbn [app]. rewrite <- !app_assoc. reflexivity.
  - apply Forall_forall. apply Forall_app. split; [repeat constructor|].
    apply Forall_app. split.
    { apply Forall_forall. intros e He.
      by apply list_elem_of_fmap in He as (i & -> & _). }
    constructor; [done|]. apply Forall_app. split; [|repeat constructor].
    apply interior_events_Forall. intros i. repeat constructor.
Qed.

Lemma closing_sequence_witness :
  valid_count (noOfRouters (with_routers 3)) /\ (63 <= 63)%nat /\
  exists w body first_dev last_dev,
    run 63 (with_routers 3) = inr (0, w)
    /\ w_trace w
       = body ++
         [EvTapInstall 0 first_dev "ns3_em0"; EvTapInstall 4 last_dev "ns3_em1";
          EvPopulateRoutingTables; EvStop 100; EvRun; EvDestroy]
    /\ (forall e, e ∈ body -> is_closing_event e = false).
Proof.
  assert (valid_count (noOfRouters (with_routers 3))) as Hv
    by (unfold valid_count; simpl; lia).
  split; [exact Hv|]. split; [lia|].
  destruct (closing_sequence 63 (with_routers 3) Hv ltac:(lia))
    as (w & body & d0 & d1 & Hrun & _ & _ & Htrace & Hbody).
  exists w, body, d0, d1. auto.
Defined.


